(** * Retrieval layer: vector-store interface, Elasticsearch backend and
      semantic-similarity example selector

    Shallow embedding of
      - [langchain/vectorstores/base.py]                      (interface [VectorStore])
      - [langchain/vectorstores/elastic_vector_search.py]     (module [ElasticVectorSearch])
      - [langchain/prompts/example_selector/semantic_similarity.py]
                                             (module [SemanticSimilarityExampleSelector])

    Python code that raises is embedded in a state-and-exception monad: a
    computation maps the world it starts in to a result (a value or the
    exception raised) and the world it leaves behind, so that what was done
    before an exception stays visible.  The search engine is not part of the
    repository: its index store is modelled concretely, its ranking of hits and
    its parsing of connection strings are parameters ([Engine]). *)

From Stdlib Require Import String ZArith QArith List Lia.
From stdpp Require Import base option list gmap strings pretty.

Local Open Scope string_scope.
Local Open Scope list_scope.
Local Open Scope Z_scope.

(* ===================================================================== *)
(** ** Python values, exceptions and the monad of effects                 *)
(* ===================================================================== *)

(** A [dict] with string keys and string values.  Python dicts iterate in
    insertion order, and that order is observable through [values()], so a
    dict is the list of its items in that order; a well-formed dict has no
    two items with the same key. *)
Abbreviation pydict := (list (string * string)).

(** [d.get(k)] / the lookup behind [d[k]]. *)
Fixpoint dict_get (k : string) (d : pydict) : option string :=
  match d with
  | [] => None
  | (k', v) :: d' => if decide (k = k') then Some v else dict_get k d'
  end.

(** [d[k] = v]: overwrite in place when the key is there, append otherwise. *)
Fixpoint dict_set (k v : string) (d : pydict) : pydict :=
  match d with
  | [] => [(k, v)]
  | (k', v') :: d' =>
      if decide (k = k') then (k, v) :: d' else (k', v') :: dict_set k v d'
  end.

(** [d.values()], in iteration order. *)
Definition dict_values (d : pydict) : list string := d.*2.

(** [sep.join(items)]. *)
Definition str_join (sep : string) (items : list string) : string :=
  String.concat sep items.

(** The values that travel through [**kwargs] in this code: a string (the
    connection endpoint), a list of dicts ([metadatas]) or [None]. *)
Inductive pyval :=
| PNone
| PStr (s : string)
| PDicts (ds : list pydict).

(** Python truthiness ([if not x]). *)
Definition truthy (v : pyval) : bool :=
  match v with
  | PNone => false
  | PStr s => negb (String.eqb s "")
  | PDicts ds => match ds with [] => false | _ => true end
  end.

(** Keyword arguments of a call. *)
Abbreviation kwargs := (gmap string pyval).

(** [kwargs.get(name)]: [None] when the keyword was not passed. *)
Definition kwargs_get (kw : kwargs) (name : string) : pyval :=
  default PNone (kw !! name).

Inductive exn :=
| ValueError (msg : string)
| KeyError (key : string)
| IndexError (msg : string)
| NameError (name : string)
| TypeError (msg : string)
| ImportError (name : string)
| TransportError (msg : string).   (* raised by the engine's client *)

Inductive result (A : Type) :=
| Ok (a : A)
| Raise (e : exn).
Arguments Ok {A} a.
Arguments Raise {A} e.

(** Computations over a world [W]. *)
Definition M (W A : Type) : Type := W → result A * W.

Definition ret {W A} (a : A) : M W A := λ w, (Ok a, w).
Definition raise {W A} (e : exn) : M W A := λ w, (Raise e, w).
Definition bind {W A B} (m : M W A) (f : A → M W B) : M W B :=
  λ w, match m w with
       | (Ok a, w') => f a w'
       | (Raise e, w') => (Raise e, w')
       end.
(** [try: m except ...: h e]; the handler re-raises what it does not catch. *)
Definition catch {W A} (m : M W A) (h : exn → M W A) : M W A :=
  λ w, match m w with
       | (Ok a, w') => (Ok a, w')
       | (Raise e, w') => h e w'
       end.
Definition gets {W A} (f : W → A) : M W A := λ w, (Ok (f w), w).
Definition modify {W} (f : W → W) : M W unit := λ w, (Ok tt, f w).

Declare Scope py_scope.
Delimit Scope py_scope with py.
Notation "x <- m ;; k" := (bind m (λ x, k))
  (at level 100, m at next level, right associativity,
   format "'[v' x  <-  m  ;;  '/' k ']'") : py_scope.
Notation "m ;;; k" := (bind m (λ _, k))
  (at level 100, right associativity,
   format "'[v' m  ;;;  '/' k ']'") : py_scope.
Local Open Scope py_scope.

(** A [for] loop that builds a list, one (possibly raising) step per item. *)
Fixpoint for_each {W A B} (f : A → M W B) (l : list A) : M W (list B) :=
  match l with
  | [] => ret []
  | x :: l' => y <- f x ;; ys <- for_each f l' ;; ret (y :: ys)
  end.

(** [enumerate(l)]. *)
Definition enumerate {A} (l : list A) : list (nat * A) := imap pair l.

(** [l[i]] for an index [i ≥ 0]. *)
Definition list_getitem {W A} (l : list A) (i : nat) : M W A :=
  match l !! i with
  | Some x => ret x
  | None => raise (IndexError "list index out of range")
  end.

(** [l[:k]]: the first [k] items; a negative [k] counts from the end. *)
Definition slice_to {A} (k : Z) (l : list A) : list A :=
  if 0 <=? k then take (Z.to_nat k) l
  else take (length l - Z.to_nat (- k))%nat l.

(** [Document]: a text payload and a metadata mapping. *)
Record Document := mkDocument {
  page_content : string;
  metadata : pydict;
}.

(** Modelled from the spec: the class [Document] lives in
    [langchain/docstore/document.py], which is not among the sources.  The
    spec gives it "a text payload and an optional mapping of metadata", and
    a Document built from the text alone has empty metadata. *)
Definition Document_of_text (text : string) : Document :=
  {| page_content := text; metadata := [] |}.

(* ===================================================================== *)
(** ** The search engine                                                  *)
(* ===================================================================== *)

Section EngineModel.
(** The scalars of embedding vectors.  The code never computes with them
    (it only takes the length of a vector), so they stay abstract. *)
Context {F : Type}.

(** The embedding capability ([langchain.embeddings.base.Embeddings]):
    a batch operation and a per-item operation. *)
Record Embeddings := {
  embed_documents : list string → list (list F);
  embed_query : string → list F;
}.

(** Index schema sent at creation: the type of the [text] property, the
    type of the [vector] property and its [dims]. *)
Record mapping := {
  text_type : string;
  vector_type : string;
  dims : nat;
}.

(** A [script_score] query over [match_all]: the script source and its
    [params.query_vector]. *)
Record script_query := {
  source : string;
  query_vector : list F;
}.

(** One action of a bulk request. *)
Record request := {
  _op_type : string;
  _index : string;
  vector : list F;
  text : string;
}.

(** The [_source] of a stored document, and of a hit. *)
Record entry := {
  entry_text : string;
  entry_vector : list F;
}.

(** An index of the engine: its schema, the documents a search sees, and
    the documents indexed since the last refresh. *)
Record es_index := {
  ix_mappings : option mapping;
  ix_docs : list entry;
  ix_pending : list entry;
}.

(** What goes over the network. *)
Inductive es_call :=
| IndicesCreate (index : string) (mappings : mapping)
| Bulk (requests : list request)
| IndicesRefresh (index : string)
| SearchIndex (index : string) (query : script_query).

(** The world the code runs in: the process environment, whether the
    [elasticsearch] package can be imported, the outcomes of
    [uuid.uuid4().hex] still to come, the engine's indices, and the log of
    the requests sent to the engine, oldest first. *)
Record World := {
  environ : gmap string string;
  elasticsearch_installed : bool;
  uuid_stream : nat → string;
  uuid_drawn : nat;
  indices : gmap string es_index;
  requests_sent : list es_call;
}.

(** What the model leaves to the engine: whether a connection string is
    accepted by the client's constructor (the message of the [ValueError]
    it raises otherwise), and the hits of a search, given the query and
    the searchable documents of the index. *)
Record Engine := {
  client_error : pyval → option string;
  rank_hits : script_query → list entry → list entry;
}.

Definition set_indices (f : gmap string es_index → gmap string es_index)
    (w : World) : World :=
  {| environ := environ w;
     elasticsearch_installed := elasticsearch_installed w;
     uuid_stream := uuid_stream w;
     uuid_drawn := uuid_drawn w;
     indices := f (indices w);
     requests_sent := requests_sent w |}.

Definition send (c : es_call) : M World unit :=
  modify (λ w,
    {| environ := environ w;
       elasticsearch_installed := elasticsearch_installed w;
       uuid_stream := uuid_stream w;
       uuid_drawn := uuid_drawn w;
       indices := indices w;
       requests_sent := requests_sent w ++ [c] |}).

(** [uuid.uuid4().hex] *)
Definition uuid4_hex : M World string :=
  λ w, (Ok (uuid_stream w (uuid_drawn w)),
        {| environ := environ w;
           elasticsearch_installed := elasticsearch_installed w;
           uuid_stream := uuid_stream w;
           uuid_drawn := S (uuid_drawn w);
           indices := indices w;
           requests_sent := requests_sent w |}).

(** [os.environ.get(name)] *)
Definition environ_get (name : string) : M World pyval :=
  gets (λ w, match environ w !! name with
             | Some s => PStr s
             | None => PNone
             end).

(** [import elasticsearch] (and [from elasticsearch.helpers import bulk]). *)
Definition import_elasticsearch : M World unit :=
  λ w, if elasticsearch_installed w then (Ok tt, w)
       else (Raise (ImportError "elasticsearch"), w).

(** A client object: it remembers where to connect. *)
Record Elasticsearch := { hosts : pyval }.

Variable eng : Engine.

(** [elasticsearch.Elasticsearch(url)]: no request is sent yet. *)
Definition new_Elasticsearch (url : pyval) : M World Elasticsearch :=
  match client_error eng url with
  | Some msg => raise (ValueError msg)
  | None => ret {| hosts := url |}
  end.

(** [client.indices.create(index=..., mappings=...)]: refused when the
    index exists. *)
Definition indices_create (client : Elasticsearch) (index : string)
    (mappings : mapping) : M World unit :=
  send (IndicesCreate index mappings) ;;;
  ixs <- gets indices ;;
  match ixs !! index with
  | Some _ => raise (TransportError "resource_already_exists_exception")
  | None =>
      modify (set_indices
        <[index := {| ix_mappings := Some mappings;
                      ix_docs := []; ix_pending := [] |}]>)
  end.

(** The document an [index] action stores. *)
Definition doc_of (r : request) : entry :=
  {| entry_text := text r; entry_vector := vector r |}.

(** One [index] action: the document is appended to its index, which is
    created on the fly when missing. *)
Definition index_one (r : request)
    (ixs : gmap string es_index) : gmap string es_index :=
  let doc := doc_of r in
  match ixs !! _index r with
  | Some ix =>
      <[_index r := {| ix_mappings := ix_mappings ix;
                       ix_docs := ix_docs ix;
                       ix_pending := ix_pending ix ++ [doc] |}]> ixs
  | None =>
      <[_index r := {| ix_mappings := None;
                       ix_docs := []; ix_pending := [doc] |}]> ixs
  end.

(** [elasticsearch.helpers.bulk(client, requests)] *)
Definition helpers_bulk (client : Elasticsearch)
    (requests : list request) : M World unit :=
  send (Bulk requests) ;;;
  modify (set_indices (λ ixs, foldl (λ acc r, index_one r acc) ixs requests)).

(** [client.indices.refresh(index=...)]: what was indexed becomes
    searchable. *)
Definition indices_refresh (client : Elasticsearch)
    (index : string) : M World unit :=
  send (IndicesRefresh index) ;;;
  ixs <- gets indices ;;
  match ixs !! index with
  | None => raise (TransportError "index_not_found_exception")
  | Some ix =>
      modify (set_indices
        <[index := {| ix_mappings := ix_mappings ix;
                      ix_docs := ix_docs ix ++ ix_pending ix;
                      ix_pending := [] |}]>)
  end.

(** [client.search(index=..., query=...)]: the hits of the response, as
    the engine ranks them. *)
Definition client_search (client : Elasticsearch) (index : string)
    (query : script_query) : M World (list entry) :=
  send (SearchIndex index query) ;;;
  ixs <- gets indices ;;
  match ixs !! index with
  | None => raise (TransportError "index_not_found_exception")
  | Some ix => ret (rank_hits eng query (ix_docs ix))
  end.

End EngineModel.

Arguments Embeddings : clear implicits.
Arguments Engine : clear implicits.
Arguments World : clear implicits.
Arguments entry : clear implicits.

(* ===================================================================== *)
(** ** [langchain/vectorstores/base.py]                                   *)
(* ===================================================================== *)

(** The abstract class [VectorStore]: a store type [T] whose operations run
    in a world [W].  [from_texts(texts, embedding, metadatas=None, **kwargs)]
    receives everything after [embedding] by keyword, so the interface
    passes the keyword arguments of the call as one mapping and each
    implementation binds the keywords it declares. *)
Class VectorStore (F W T : Type) := {
  similarity_search : T → string → Z → M W (list Document);
  from_texts : list string → Embeddings F → kwargs → M W T;
}.

(* ===================================================================== *)
(** ** [langchain/vectorstores/elastic_vector_search.py]                  *)
(* ===================================================================== *)

Module ElasticVectorSearch.
Section Def.
Context {F : Type}.
Variable eng : Engine F.

(** Names bound in the global scope of the module: its imports (lines 2-8),
    its two functions and its class.  [bulk] is imported inside [from_texts]
    only (line 139), which binds a local name of that function. *)
Definition module_globals : list string :=
  [ "os"; "uuid"; "Any"; "Callable"; "Dict"; "List";
    "Document"; "Embeddings"; "VectorStore";
    "_default_text_mapping"; "_default_script_query"; "ElasticVectorSearch" ].

(** Reading a name that is not a local of the function: found among the
    globals of the module, or else (no builtin has any of the names looked
    up here) [NameError]. *)
Definition load_global {W} (name : string) : M W unit :=
  if bool_decide (name ∈ module_globals) then ret tt
  else raise (NameError name).

Definition _default_text_mapping (dim : nat) : mapping :=
  {| text_type := "text"; vector_type := "dense_vector"; dims := dim |}.

Definition _default_script_query (query_vector : list F) : script_query :=
  {| source := "cosineSimilarity(params.query_vector, 'vector') + 1.0";
     query_vector := query_vector |}.

(** The attributes of an instance. *)
Record t := {
  embedding_function : string → list F;
  index_name : string;
  client : Elasticsearch;
}.

Definition import_error_message : string :=
  "Could not import elasticsearch python packge. " +:+
  "Please install it with `pip install elasticearch`.".

Definition misformatted_message (e : string) : string :=
  "Your elasticsearch client string is misformatted. " +:+
  "Got error: " +:+ e +:+ " ".

Definition missing_url_message : string :=
  "Did not find Elasticsearch URL, please add an environment variable" +:+
  " `ELASTICSEARCH_URL` which contains it, or pass" +:+
  "  `elasticsearch_url` as a named parameter.".

(** Lines 47-69. *)
Definition __init__ (elasticsearch_url : pyval) (index_name : string)
    (embedding_function : string → list F) : M (World F) t :=
  catch import_elasticsearch
    (λ e, match e with
          | ImportError _ => raise (ValueError import_error_message)
          | _ => raise e
          end) ;;;
  es_client <-
    catch (new_Elasticsearch eng elasticsearch_url)
      (λ e, match e with
            | ValueError msg => raise (ValueError (misformatted_message msg))
            | _ => raise e
            end) ;;
  ret {| embedding_function := embedding_function;
         index_name := index_name;
         client := es_client |}.

(** Lines 71-83.  [bulk] is read as a global of the module. *)
Definition add_texts (self : t) (texts : list string) : M (World F) unit :=
  requests <-
    for_each (λ '(i, text),
        ret {| _op_type := "index";
               _index := index_name self;
               vector := embedding_function self text;
               text := text |})
      (enumerate texts) ;;
  load_global "bulk" ;;;
  helpers_bulk (client self) requests ;;;
  indices_refresh (client self) (index_name self).

(** Lines 85-100. *)
Definition similarity_search (self : t) (query : string) (k : Z)
    : M (World F) (list Document) :=
  let embedding := embedding_function self query in
  let script_query := _default_script_query embedding in
  response_hits <- client_search eng (client self) (index_name self) script_query ;;
  let texts := entry_text <$> slice_to k response_hits in
  let documents := Document_of_text <$> texts in
  ret documents.

(** Lines 102-169.  The class method takes [texts], [embedding] and
    [**kwargs]: a [metadatas] keyword lands in [kwargs] and is not read. *)
Definition from_texts (texts : list string) (embedding : Embeddings F)
    (kw : kwargs) : M (World F) t :=
  let elasticsearch_url := kwargs_get kw "elasticsearch_url" in
  elasticsearch_url <-
    (if negb (truthy elasticsearch_url) then
       elasticsearch_url <- environ_get "ELASTICSEARCH_URL" ;;
       match elasticsearch_url with
       | PNone | PStr "" => raise (ValueError missing_url_message)
       | _ => ret elasticsearch_url
       end
     else ret elasticsearch_url) ;;
  catch import_elasticsearch
    (λ e, match e with
          | ImportError _ => raise (ValueError import_error_message)
          | _ => raise e
          end) ;;;
  client <-
    catch (new_Elasticsearch eng elasticsearch_url)
      (λ e, match e with
            | ValueError msg => raise (ValueError (misformatted_message msg))
            | _ => raise e
            end) ;;
  index_name <- uuid4_hex ;;
  let embeddings := embed_documents embedding texts in
  first <- list_getitem embeddings 0 ;;
  let dim := length first in
  let mapping := _default_text_mapping dim in
  indices_create client index_name mapping ;;;
  requests <-
    for_each (λ '(i, text),
        v <- list_getitem embeddings i ;;
        ret {| _op_type := "index";
               _index := index_name;
               vector := v;
               text := text |})
      (enumerate texts) ;;
  helpers_bulk client requests ;;;
  indices_refresh client index_name ;;;
  __init__ elasticsearch_url index_name (embed_query embedding).

End Def.
End ElasticVectorSearch.

(** [ElasticVectorSearch] is a [VectorStore]. *)
#[export] Instance ElasticVectorSearch_VectorStore {F} (eng : Engine F)
    : VectorStore F (World F) (@ElasticVectorSearch.t F) := {
  similarity_search := ElasticVectorSearch.similarity_search eng;
  from_texts := ElasticVectorSearch.from_texts eng;
}.

(* ===================================================================== *)
(** ** [langchain/prompts/example_selector/semantic_similarity.py]        *)
(* ===================================================================== *)

Module SemanticSimilarityExampleSelector.
Section Def.
Context {F W T : Type} `{!VectorStore F W T}.

(** The fields of the model: the store, [k] (default 4) and the optional
    [example_keys] (default [None]). *)
Record t := {
  vectorstore : T;
  k : Z;
  example_keys : option (list string);
}.

(** [if self.example_keys:] - [None] and the empty list are both false. *)
Definition keys_given (example_keys : option (list string)) : bool :=
  match example_keys with
  | Some (_ :: _) => true
  | _ => false
  end.

(** [{k: eg[k] for k in keys}], built key by key from [acc]; [eg[k]] raises
    [KeyError] when the key is missing. *)
Fixpoint dict_of_keys (keys : list string) (eg acc : pydict) : M W pydict :=
  match keys with
  | [] => ret acc
  | k :: keys' =>
      match dict_get k eg with
      | Some v => dict_of_keys keys' eg (dict_set k v acc)
      | None => raise (KeyError k)
      end
  end.

(** Lines 27-38. *)
Definition select_examples (self : t) (input_variables : pydict)
    : M W (list pydict) :=
  let query := str_join " " (dict_values input_variables) in
  example_docs <- similarity_search (vectorstore self) query (k self) ;;
  let examples := metadata <$> example_docs in
  if keys_given (example_keys self) then
    for_each (λ eg, dict_of_keys (default [] (example_keys self)) eg [])
      examples
  else ret examples.

(** Lines 40-75.  The store class [vectorstore_cls] is the [VectorStore]
    instance in the context.  [metadatas=examples] is passed next to
    [**vectorstore_cls_kwargs]; Python refuses a call that receives the same
    keyword twice. *)
Definition from_examples (examples : list pydict) (embeddings : Embeddings F)
    (k : Z) (vectorstore_cls_kwargs : kwargs) : M W t :=
  let string_examples :=
    (λ eg, str_join " " (dict_values eg)) <$> examples in
  vectorstore <-
    match vectorstore_cls_kwargs !! "metadatas" with
    | Some _ =>
        raise (TypeError
                 "got multiple values for keyword argument 'metadatas'")
    | None =>
        from_texts string_examples embeddings
          (<["metadatas" := PDicts examples]> vectorstore_cls_kwargs)
    end ;;
  ret {| vectorstore := vectorstore; k := k; example_keys := None |}.

End Def.
Arguments t : clear implicits.
End SemanticSimilarityExampleSelector.

(* ===================================================================== *)
(** ** Reference engines and backends                                     *)
(* ===================================================================== *)

(** None of what follows is code of the repository.  These are small,
    executable stand-ins for what the repository talks to: engines with
    integer vectors that rank by cosine similarity, and backends that
    implement [VectorStore] in memory.  They instantiate the parameters of
    the model at concrete inputs. *)

Definition dot (a b : list Z) : Z := foldr Z.add 0 (zip_with Z.mul a b).

(** The sign of the cosine times its square: it orders vectors as the
    cosine itself (and as the engine's score, the cosine plus 1.0) does,
    and is a rational number.  A vector of magnitude zero gets 0. *)
Definition cosine_key (q v : list Z) : Q :=
  (inject_Z (Z.sgn (dot q v) * (dot q v * dot q v))
   / inject_Z (dot q q * dot v v))%Q.

(** Insertion of a hit into hits sorted by descending key; the new hit was
    indexed before those it is inserted into, and stays before its equals. *)
Fixpoint insert_hit (q : list Z) (x : entry Z) (hits : list (entry Z))
    : list (entry Z) :=
  match hits with
  | [] => [x]
  | y :: hits' =>
      if Qlt_le_dec (cosine_key q (entry_vector x)) (cosine_key q (entry_vector y))
      then y :: insert_hit q x hits'
      else x :: y :: hits'
  end.

Definition rank_by_cosine (query : script_query) (docs : list (entry Z))
    : list (entry Z) :=
  foldr (insert_hit (query_vector query)) [] docs.

(** A connection string is accepted when it names a scheme. *)
Definition url_error (url : pyval) : option string :=
  match url with
  | PStr s =>
      if String.prefix "http" s then None
      else Some "URL must include a 'scheme', 'host', and 'port' component"
  | _ => Some "Unsupported host type"
  end.

(** An engine whose response lists every document of the index, best
    first. *)
Definition full_engine : Engine Z :=
  {| client_error := url_error; rank_hits := rank_by_cosine |}.

(** Against the query vector [q], [a] has the strictly larger cosine. *)
Definition cosine_outscores (q a b : list Z) : Prop :=
  (cosine_key q b < cosine_key q a)%Q.

(** An engine whose response holds one page of hits, best first.  The
    search request of [similarity_search] (line 97) names no [size];
    Elasticsearch then answers with its default page of 10 hits, which is
    [paged_engine 10]. *)
Definition paged_engine (size : nat) : Engine Z :=
  {| client_error := url_error;
     rank_hits := λ query docs, take size (rank_by_cosine query docs) |}.

(** A backend that keeps texts and metadata in a list, and ranks the
    entries whose text is the query before all others, in the order they
    were stored. *)
Module MemoryStore.
Section Def.
Context {F : Type}.

Definition from_texts (texts : list string) (embedding : Embeddings F)
    (kw : kwargs) : M unit (list Document) :=
  match kwargs_get kw "metadatas" with
  | PDicts metadatas =>
      if decide (length metadatas = length texts)
      then ret (zip_with mkDocument texts metadatas)
      else raise (IndexError "list index out of range")
  | PNone => ret (Document_of_text <$> texts)
  | PStr _ => raise (TypeError "metadatas must be a list of dicts")
  end.

Definition similarity_search (self : list Document) (query : string) (k : Z)
    : M unit (list Document) :=
  ret (slice_to k
         (filter (λ d, page_content d = query) self
          ++ filter (λ d, page_content d ≠ query) self)).

End Def.
End MemoryStore.

#[export] Instance MemoryStore_VectorStore {F}
    : VectorStore F unit (list Document) := {
  similarity_search := MemoryStore.similarity_search;
  from_texts := MemoryStore.from_texts;
}.

(** A backend that stores nothing and records what it is called with. *)
Inductive recorded :=
| FromTexts (texts : list string) (kw : kwargs)
| SimilaritySearch (query : string) (k : Z).

Module Recorder.
Section Def.
Context {F : Type}.

Definition from_texts (texts : list string) (embedding : Embeddings F)
    (kw : kwargs) : M (list recorded) unit :=
  modify (λ log, log ++ [FromTexts texts kw]).

Definition similarity_search (self : unit) (query : string) (k : Z)
    : M (list recorded) (list Document) :=
  modify (λ log, log ++ [SimilaritySearch query k]) ;;;
  ret [].

End Def.
End Recorder.

#[export] Instance Recorder_VectorStore {F}
    : VectorStore F (list recorded) unit := {
  similarity_search := Recorder.similarity_search;
  from_texts := Recorder.from_texts;
}.

(* ===================================================================== *)
(** ** Vocabulary of the statements                                       *)
(* ===================================================================== *)

(** The endpoint [from_texts] connects to (lines 127-136): the keyword
    argument when it is given and not empty, else the environment variable
    when it is set and not empty. *)
Definition configured_endpoint {F} (kw : kwargs) (w : World F) : option pyval :=
  if truthy (kwargs_get kw "elasticsearch_url")
  then Some (kwargs_get kw "elasticsearch_url")
  else match environ w !! "ELASTICSEARCH_URL" with
       | Some s => if String.eqb s "" then None else Some (PStr s)
       | None => None
       end.

(** The documents [from_texts] indexes: one per text, with its vector. *)
Definition entries_of {F} (texts : list string) (embeddings : list (list F))
    : list (entry F) :=
  zip_with (λ t v, {| entry_text := t; entry_vector := v |}) texts embeddings.

(** What the spec asks of a ranking: the first hit is a document of the
    index that no document of the index outscores.  [outscores q a b] reads
    "against the query vector [q], [a] scores strictly higher than [b]". *)
Definition best_first {F} (eng : Engine F)
    (outscores : list F → list F → list F → Prop) : Prop :=
  ∀ query docs, docs ≠ [] →
    ∃ h rest, rank_hits eng query docs = h :: rest ∧ h ∈ docs ∧
      ∀ e, e ∈ docs →
        ¬ outscores (query_vector query) (entry_vector e) (entry_vector h).

(** Spec's words for the flattening of an example: "join its values (order
    = mapping's native iteration order) with single spaces into one
    flattened string". *)
Fixpoint flatten_values (d : pydict) : string :=
  match d with
  | [] => ""
  | (_, v) :: d' =>
      match d' with
      | [] => v
      | _ :: _ => v +:+ " " +:+ flatten_values d'
      end
  end.

(** A backend "that persists metadata": every document a search returns on
    a store built by [from_texts] carries the text and the metadata of one
    of the entries the store was built from. *)
Definition persists_metadata {F W T} `{!VectorStore F W T} : Prop :=
  ∀ texts (emb : Embeddings F) metadatas kw w s w1 query k docs w2,
    length metadatas = length texts →
    from_texts texts emb (<["metadatas" := PDicts metadatas]> kw) w = (Ok s, w1) →
    similarity_search s query k w1 = (Ok docs, w2) →
    ∀ d, d ∈ docs →
      ∃ j, texts !! j = Some (page_content d) ∧
           metadatas !! j = Some (metadata d).

(* ===================================================================== *)
(** ** Sample inputs                                                      *)
(* ===================================================================== *)

(** An embedding that looks at the length of the text only. *)
Definition length_embedding : Embeddings Z :=
  {| embed_documents :=
       λ texts, (λ t, [Z.of_nat (String.length t); 1]) <$> texts;
     embed_query := λ t, [Z.of_nat (String.length t); 1] |}.

(** A world with the package installed, the endpoint in the environment
    and no index yet. *)
Definition sample_world : World Z :=
  {| environ := {[ "ELASTICSEARCH_URL" := "http://localhost:9200" ]};
     elasticsearch_installed := true;
     uuid_stream := λ n, "index-" +:+ pretty n;
     uuid_drawn := 0;
     indices := ∅;
     requests_sent := [] |}.

(** The same world without the environment variable. *)
Definition bare_world : World Z :=
  {| environ := ∅;
     elasticsearch_installed := true;
     uuid_stream := λ n, "index-" +:+ pretty n;
     uuid_drawn := 0;
     indices := ∅;
     requests_sent := [] |}.

Definition eleven_texts : list string :=
  [ "a"; "bb"; "ccc"; "dddd"; "eeeee"; "ffffff"; "ggggggg"; "hhhhhhhh";
    "iiiiiiiii"; "jjjjjjjjjj"; "kkkkkkkkkkk" ].

Definition example_sum : pydict := [("q", "2+2"); ("a", "4")].
Definition example_ocean : pydict := [("q", "ocean color"); ("a", "blue")].
Definition example_no_answer : pydict := [("q", "why")].

(** Two different examples with the same flattened text, "a b c". *)
Definition example_split_late : pydict := [("q", "a b"); ("a", "c")].
Definition example_split_early : pydict := [("q", "a"); ("a", "b c")].

(** The store [from_texts] builds in [sample_world] from the flattened
    arithmetic and ocean examples, and the world it leaves. *)
Definition sample_store : ElasticVectorSearch.t :=
  {| ElasticVectorSearch.embedding_function := embed_query length_embedding;
     ElasticVectorSearch.index_name := "index-0";
     ElasticVectorSearch.client := {| hosts := PStr "http://localhost:9200" |} |}.

Definition sample_indexed_world : World Z :=
  snd (ElasticVectorSearch.from_texts full_engine
         ["2+2 4"; "ocean color blue"] length_embedding
         (<["metadatas" := PDicts [example_sum; example_ocean]]> ∅)
         sample_world).

(** The in-memory store of the two arithmetic-and-ocean examples, of an
    example without answer next to a complete one, and selectors over
    them. *)
Definition memory_examples : list Document :=
  [ mkDocument "2+2 4" example_sum;
    mkDocument "ocean color blue" example_ocean ].

Definition memory_incomplete : list Document :=
  [ mkDocument "2+2 4" example_sum;
    mkDocument "why" example_no_answer ].

Definition selector_over (store : list Document)
    (example_keys : option (list string))
    : SemanticSimilarityExampleSelector.t (list Document) :=
  {| SemanticSimilarityExampleSelector.vectorstore := store;
     SemanticSimilarityExampleSelector.k := 4;
     SemanticSimilarityExampleSelector.example_keys := example_keys |}.

(* ===================================================================== *)
(** ** Further vocabulary and sample inputs                               *)
(* ===================================================================== *)

(** An engine whose response lists every searchable document of the index
    once, in some order. *)
Definition lists_every_document {F} (eng : Engine F) : Prop :=
  ∀ query docs, rank_hits eng query docs ≡ₚ docs.

(** Whether a string contains a space. *)
Fixpoint has_space (s : string) : bool :=
  match s with
  | EmptyString => false
  | String c s' => if Ascii.eqb c Ascii.Space then true else has_space s'
  end.

(** [sample_world] without the [elasticsearch] package. *)
Definition uninstalled_world : World Z :=
  {| environ := {[ "ELASTICSEARCH_URL" := "http://localhost:9200" ]};
     elasticsearch_installed := false;
     uuid_stream := λ n, "index-" +:+ pretty n;
     uuid_drawn := 0;
     indices := ∅;
     requests_sent := [] |}.

(** An embedding whose batch operation answers with one vector only. *)
Definition short_embedding : Embeddings Z :=
  {| embed_documents :=
       λ texts, take 1 ((λ t, [Z.of_nat (String.length t); 1]) <$> texts);
     embed_query := λ t, [Z.of_nat (String.length t); 1] |}.

(** A selector over the Elasticsearch store of the samples. *)
Definition elastic_selector (example_keys : option (list string))
    : SemanticSimilarityExampleSelector.t ElasticVectorSearch.t :=
  {| SemanticSimilarityExampleSelector.vectorstore := sample_store;
     SemanticSimilarityExampleSelector.k := 4;
     SemanticSimilarityExampleSelector.example_keys := example_keys |}.

(** The selector [from_examples] builds over that store. *)
Definition elastic_selector_built (k : Z)
    : SemanticSimilarityExampleSelector.t ElasticVectorSearch.t :=
  {| SemanticSimilarityExampleSelector.vectorstore := sample_store;
     SemanticSimilarityExampleSelector.k := k;
     SemanticSimilarityExampleSelector.example_keys := None |}.

(* ===================================================================== *)
(** ** Facts about the monad and the Python helpers                       *)
(* ===================================================================== *)

Lemma bind_Ok_inv {W A B} (m : M W A) (f : A → M W B) w b w' :
  bind m f w = (Ok b, w') →
  ∃ a w1, m w = (Ok a, w1) ∧ f a w1 = (Ok b, w').
Proof.
  unfold bind. destruct (m w) as [[a|e] w1]; [eauto | discriminate].
Qed.

Lemma bind_Ok_eq {W A B} (m : M W A) (f : A → M W B) w a w1 :
  m w = (Ok a, w1) → bind m f w = f a w1.
Proof. unfold bind. by intros ->. Qed.

Lemma bind_Raise_eq {W A B} (m : M W A) (f : A → M W B) w e w1 :
  m w = (Raise e, w1) → bind m f w = (Raise e, w1).
Proof. unfold bind. by intros ->. Qed.

(** Running a sequence whose first computation is known to return. *)
Ltac step_Ok := erewrite bind_Ok_eq; last first.

(** A loop whose steps neither raise nor touch the world. *)
Lemma for_each_pure {W A B} (f : A → M W B) (g : A → B) (l : list A) (w : W) :
  (∀ x w, f x w = (Ok (g x), w)) →
  for_each f l w = (Ok (g <$> l), w).
Proof.
  intros Hf. induction l as [|x l IH]; [done|].
  cbn [for_each]. unfold bind at 1. rewrite Hf.
  unfold bind at 1. by rewrite IH.
Qed.

Lemma slice_to_length {A} (k : Z) (l : list A) :
  0 ≤ k → length (slice_to k l) = Nat.min (Z.to_nat k) (length l).
Proof.
  intros Hk. unfold slice_to.
  destruct (Z.leb_spec 0 k); [|lia]. by rewrite length_take.
Qed.

Lemma slice_to_subseteq {A} (k : Z) (l : list A) x :
  x ∈ slice_to k l → x ∈ l.
Proof.
  unfold slice_to. destruct (0 <=? k); intros Hx;
    by eapply subseteq_take.
Qed.

Lemma slice_to_cons {A} (k : Z) (x : A) (l : list A) :
  0 < k → ∃ rest, slice_to k (x :: l) = x :: rest.
Proof.
  intros Hk. unfold slice_to. destruct (Z.leb_spec 0 k); [|lia].
  destruct (Z.to_nat k) as [|n] eqn:E; [lia|]. cbn. eauto.
Qed.

(* ===================================================================== *)
(** ** Facts about the Elasticsearch backend                              *)
(* ===================================================================== *)

Section ElasticFacts.
Context {F : Type}.
Variable eng : Engine F.

Import ElasticVectorSearch.

Lemma requests_loop_Ok name (embs : list (list F)) texts n (w : World F) :
  (length texts ≤ length (drop n embs))%nat →
  for_each (λ '(i, text),
      v <- list_getitem embs i ;;
      ret {| _op_type := "index"; _index := name; vector := v; text := text |})
    (imap (λ i x, ((n + i)%nat, x)) texts) w
  = (Ok (zip_with (λ t v, {| _op_type := "index"; _index := name;
                             vector := v; text := t |}) texts (drop n embs)), w).
Proof.
  revert n. induction texts as [|t texts IH]; intros n Hlen; [done|].
  cbn [imap for_each]. rewrite Nat.add_0_r.
  destruct (drop n embs) as [|v rest] eqn:Hd; [cbn in Hlen; lia|].
  assert (Hv : embs !! n = Some v).
  { rewrite <- (Nat.add_0_r n), <- lookup_drop, Hd. done. }
  unfold bind at 1, list_getitem. rewrite Hv. cbn.
  unfold bind at 1.
  rewrite (imap_ext _ (λ i x, ((S n + i)%nat, x))); last first.
  { intros i x _. cbn. f_equal. lia. }
  rewrite IH.
  - cbn. do 3 f_equal. by rewrite <- Nat.add_1_r, <- drop_drop, Hd.
  - assert (drop (S n) embs = rest) as ->; [|cbn in Hlen; lia].
    by rewrite <- Nat.add_1_r, <- drop_drop, Hd.
Qed.

Lemma requests_loop_Raise name (embs : list (list F)) texts n (w : World F) :
  (length (drop n embs) < length texts)%nat →
  for_each (λ '(i, text),
      v <- list_getitem embs i ;;
      ret {| _op_type := "index"; _index := name; vector := v; text := text |})
    (imap (λ i x, ((n + i)%nat, x)) texts) w
  = (Raise (IndexError "list index out of range"), w).
Proof.
  revert n. induction texts as [|t texts IH]; intros n Hlen; [by apply Nat.nlt_0_r in Hlen|].
  cbn [imap for_each]. rewrite Nat.add_0_r.
  unfold bind at 1, list_getitem.
  destruct (embs !! n) as [v|] eqn:Hv; [|done].
  cbn. unfold bind at 1.
  rewrite (imap_ext _ (λ i x, ((S n + i)%nat, x))); last first.
  { intros i x _. cbn. f_equal. lia. }
  rewrite IH; [done|].
  apply lookup_lt_Some in Hv. rewrite length_drop in *. cbn in Hlen. lia.
Qed.

Lemma bulk_same_index name (reqs : list (@request F)) ixs ix :
  Forall (λ r, _index r = name) reqs →
  ixs !! name = Some ix →
  foldl (λ acc r, index_one r acc) ixs reqs
  = <[name := {| ix_mappings := ix_mappings ix;
                 ix_docs := ix_docs ix;
                 ix_pending := ix_pending ix ++ (doc_of <$> reqs) |}]> ixs.
Proof.
  intros Hall. revert ixs ix.
  induction Hall as [|r reqs Hr _ IH]; intros ixs ix Hix.
  - cbn. rewrite app_nil_r. destruct ix. by rewrite insert_id.
  - cbn [foldl]. unfold index_one at 2. rewrite Hr, Hix.
    erewrite IH; [|by rewrite lookup_insert_eq].
    cbn. rewrite insert_insert_eq. by rewrite <- app_assoc.
Qed.



Lemma resolve_url_Ok kw (w : World F) url wa :
  (if negb (truthy (kwargs_get kw "elasticsearch_url")) then
     elasticsearch_url <- environ_get "ELASTICSEARCH_URL" ;;
     match elasticsearch_url with
     | PNone | PStr "" => raise (ValueError missing_url_message)
     | _ => ret elasticsearch_url
     end
   else ret (kwargs_get kw "elasticsearch_url")) w = (Ok url, wa) →
  wa = w ∧ configured_endpoint kw w = Some url.
Proof.
  unfold configured_endpoint.
  destruct (truthy (kwargs_get kw "elasticsearch_url")); cbn.
  - unfold ret. by intros [= <- <-].
  - unfold bind, environ_get, gets.
    destruct (environ w !! "ELASTICSEARCH_URL") as [s|]; [|done].
    destruct s; cbn; unfold ret; [done|]. by intros [= <- <-].
Qed.

Lemma import_Ok (w : World F) u wa :
  catch import_elasticsearch
    (λ e, match e with
          | ImportError _ => raise (ValueError import_error_message)
          | _ => raise e
          end) w = (Ok u, wa) →
  wa = w ∧ elasticsearch_installed w = true.
Proof.
  unfold catch, import_elasticsearch.
  destruct (elasticsearch_installed w); [|done]. by intros [= <- <-].
Qed.

Lemma connect_Ok url (w : World F) c wa :
  catch (new_Elasticsearch eng url)
    (λ e, match e with
          | ValueError msg => raise (ValueError (misformatted_message msg))
          | _ => raise e
          end) w = (Ok c, wa) →
  wa = w ∧ client_error eng url = None ∧ c = {| hosts := url |}.
Proof.
  unfold catch, new_Elasticsearch.
  destruct (client_error eng url); [done|].
  unfold ret. by intros [= <- <-].
Qed.

Lemma init_Ok url name f (w : World F) s wa :
  __init__ eng url name f w = (Ok s, wa) →
  wa = w ∧ elasticsearch_installed w = true ∧ client_error eng url = None ∧
  s = {| embedding_function := f; index_name := name;
         client := {| hosts := url |} |}.
Proof.
  unfold __init__. intros H.
  apply bind_Ok_inv in H as (u & w1 & H1 & H).
  apply import_Ok in H1 as [-> Hin].
  apply bind_Ok_inv in H as (c & w2 & H2 & H).
  apply connect_Ok in H2 as (-> & Hc & ->).
  unfold ret in H. by injection H as <- <-.
Qed.

Lemma requests_same_index name texts (embs : list (list F)) :
  Forall (λ r, _index r = name)
    (zip_with (λ t v, {| _op_type := "index"; _index := name;
                         vector := v; text := t |}) texts embs).
Proof.
  revert embs. induction texts as [|t texts IH]; intros [|v embs]; cbn;
    constructor; auto.
Qed.

Lemma doc_of_requests name texts (embs : list (list F)) :
  doc_of <$> zip_with (λ t v, {| _op_type := "index"; _index := name;
                                 vector := v; text := t |}) texts embs
  = entries_of texts embs.
Proof.
  revert embs. induction texts as [|t texts IH]; intros [|v embs]; cbn;
    [done..|]. by rewrite IH.
Qed.

(** What a successful [from_texts] has done. *)
Lemma from_texts_Ok texts emb kw (w : World F) s w1 :
  from_texts eng texts emb kw w = (Ok s, w1) →
  ∃ url first,
    configured_endpoint kw w = Some url ∧
    elasticsearch_installed w = true ∧
    client_error eng url = None ∧
    embed_documents emb texts !! 0%nat = Some first ∧
    (length texts ≤ length (embed_documents emb texts))%nat ∧
    indices w !! uuid_stream w (uuid_drawn w) = None ∧
    s = {| embedding_function := embed_query emb;
           index_name := uuid_stream w (uuid_drawn w);
           client := {| hosts := url |} |} ∧
    indices w1
    = <[uuid_stream w (uuid_drawn w) :=
          {| ix_mappings := Some (_default_text_mapping (length first));
             ix_docs := entries_of texts (embed_documents emb texts);
             ix_pending := [] |}]> (indices w) ∧
    ∃ requests,
      requests_sent w1
      = requests_sent w
        ++ [IndicesCreate (uuid_stream w (uuid_drawn w))
              (_default_text_mapping (length first));
            Bulk requests;
            IndicesRefresh (uuid_stream w (uuid_drawn w))].
Proof.
  unfold from_texts. intros H.
  apply bind_Ok_inv in H as (url & wa & Hurl & H).
  apply resolve_url_Ok in Hurl as [-> Hurl].
  apply bind_Ok_inv in H as (u & wa & Himp & H).
  apply import_Ok in Himp as [-> Himp].
  apply bind_Ok_inv in H as (c & wa & Hcon & H).
  apply connect_Ok in Hcon as (-> & Hcon & ->).
  apply bind_Ok_inv in H as (nm & wa & Huuid & H).
  unfold uuid4_hex in Huuid. injection Huuid as <- <-.
  set (name := uuid_stream w (uuid_drawn w)) in *.
  apply bind_Ok_inv in H as (first & wa & Hfirst & H).
  unfold list_getitem in Hfirst.
  destruct (embed_documents emb texts !! 0%nat) as [v|] eqn:Hv; [|done].
  unfold ret in Hfirst. injection Hfirst as -> <-.
  apply bind_Ok_inv in H as (u1 & wa & Hcreate & H).
  unfold indices_create, bind, send, modify, gets in Hcreate. cbn in Hcreate.
  destruct (indices w !! name) as [ix0|] eqn:Hfresh; [done|].
  injection Hcreate as _ <-.
  apply bind_Ok_inv in H as (requests & wa & Hloop & H).
  unfold enumerate in Hloop.
  destruct (decide (length texts ≤ length (embed_documents emb texts))%nat)
    as [Hlen|Hlen].
  2: { rewrite (requests_loop_Raise name _ texts 0) in Hloop; [done|].
       rewrite drop_0. lia. }
  rewrite (requests_loop_Ok name _ texts 0) in Hloop by (by rewrite drop_0).
  rewrite drop_0 in Hloop. injection Hloop as <- <-.
  apply bind_Ok_inv in H as (u2 & wa & Hbulk & H).
  unfold helpers_bulk, bind, send, modify, set_indices in Hbulk.
  cbn in Hbulk. injection Hbulk as _ <-.
  apply bind_Ok_inv in H as (u3 & wa & Hrefresh & H).
  unfold indices_refresh, bind, send, modify, gets, set_indices in Hrefresh.
  cbn in Hrefresh.
  erewrite bulk_same_index in Hrefresh;
    [|apply requests_same_index|by rewrite lookup_insert_eq].
  rewrite lookup_insert_eq in Hrefresh. cbn in Hrefresh.
  rewrite !insert_insert_eq, doc_of_requests in Hrefresh.
  injection Hrefresh as _ <-.
  apply init_Ok in H as (-> & _ & _ & ->).
  exists url, first. cbn. repeat (split; [done|]).
  eexists. by rewrite <- !app_assoc.
Qed.

Lemma similarity_search_run (self : t) query k (w : World F) ix :
  indices w !! index_name self = Some ix →
  similarity_search eng self query k w
  = (Ok (Document_of_text <$>
           (entry_text <$>
              slice_to k
                (rank_hits eng
                   (_default_script_query (embedding_function self query))
                   (ix_docs ix)))),
     snd (send (SearchIndex (index_name self)
                  (_default_script_query (embedding_function self query))) w)).
Proof.
  intros Hix. unfold similarity_search, client_search, bind, send, modify, gets.
  cbn. by rewrite Hix.
Qed.

Lemma similarity_search_Ok_inv (self : t) query k (w : World F) docs w' :
  similarity_search eng self query k w = (Ok docs, w') →
  ∃ hits : list (entry F), docs = Document_of_text <$> (entry_text <$> hits).
Proof.
  unfold similarity_search, client_search, bind, send, modify, gets. cbn.
  destruct (indices w !! index_name self); [|done].
  unfold ret. intros [= <- _]. eauto.
Qed.

Lemma entries_of_length texts (embs : list (list F)) :
  (length texts ≤ length embs)%nat →
  length (entries_of texts embs) = length texts.
Proof. intros. unfold entries_of. rewrite length_zip_with. lia. Qed.

(** What holds of the length of the result for every engine: on a store
    built by [from_texts], for a positive [k], [similarity_search(query, k)]
    returns at most [k] Documents, as many as the smaller of [k] and the
    number of hits in the engine's response.  The index holds one entry per
    text, and when the response lists as many hits as the index has entries
    and [k] is at least that number, the result has exactly that length. *)
Theorem similarity_search_length texts emb kw (w : World F) s w1 query k :
  0 < k →
  from_texts eng texts emb kw w = (Ok s, w1) →
  ∃ ix docs w2,
    indices w1 !! index_name s = Some ix ∧
    length (ix_docs ix) = length texts ∧
    similarity_search eng s query k w1 = (Ok docs, w2) ∧
    Z.of_nat (length docs) ≤ k ∧
    length docs
    = Nat.min (Z.to_nat k)
        (length (rank_hits eng (_default_script_query (embed_query emb query))
                   (ix_docs ix))) ∧
    (length (rank_hits eng (_default_script_query (embed_query emb query))
               (ix_docs ix)) = length (ix_docs ix) →
     Z.of_nat (length texts) ≤ k →
     length docs = length texts).
Proof.
  intros Hk Hbuilt.
  apply from_texts_Ok in Hbuilt
    as (url & first & _ & _ & _ & _ & Hlen & _ & -> & Hix & _).
  eexists _, _, _. cbn [index_name embedding_function].
  split; [by rewrite Hix, lookup_insert_eq|]. cbn [ix_docs].
  split; [by apply entries_of_length|].
  split.
  { apply similarity_search_run. cbn. by rewrite Hix, lookup_insert_eq. }
  cbn [ix_docs embedding_function].
  rewrite !length_fmap, slice_to_length by lia.
  rewrite entries_of_length by done.
  repeat split; lia.
Qed.

(** C2 (amended) - Identity retrieval holds when the engine puts a best
    scoring document first, the batch embedding agrees with the per-item
    one, and against the vector of [texts[i]] its own vector outscores the
    vector of every different text: then [similarity_search(texts[i], 1)] on
    the store built from [texts] returns the single Document whose text is
    [texts[i]]. *)
Theorem identity_retrieval outscores texts emb kw (w : World F) s w1 i ti :
  best_first eng outscores →
  embed_documents emb texts = embed_query emb <$> texts →
  texts !! i = Some ti →
  (∀ t, t ∈ texts → t ≠ ti →
     outscores (embed_query emb ti) (embed_query emb ti) (embed_query emb t)) →
  from_texts eng texts emb kw w = (Ok s, w1) →
  ∃ w2, similarity_search eng s ti 1 w1 = (Ok [Document_of_text ti], w2).
Proof.
  intros Hbest Hexact Hi Hsep Hbuilt.
  apply from_texts_Ok in Hbuilt
    as (url & first & _ & _ & _ & _ & Hlen & _ & -> & Hix & _).
  eexists. erewrite similarity_search_run;
    [|cbn; by rewrite Hix, lookup_insert_eq].
  cbn [ix_docs embedding_function]. f_equal. f_equal.
  set (docs := entries_of texts (embed_documents emb texts)).
  assert (Hin : ∀ e, e ∈ docs ↔
            ∃ t, t ∈ texts ∧
              e = {| entry_text := t; entry_vector := embed_query emb t |}).
  { intros e. unfold docs, entries_of. rewrite Hexact.
    clear. induction texts as [|t0 texts IH]; cbn.
    - split; [by intros ?%elem_of_nil|by intros (? & ?%elem_of_nil & _)].
    - rewrite elem_of_cons, IH. split.
      + intros [->|(t & Ht & ->)]; eexists; (split; [|done]);
          [by left|by right].
      + intros (t & [->|Ht]%elem_of_cons & ->); [by left|right; eauto]. }
  assert (Hmine : {| entry_text := ti; entry_vector := embed_query emb ti |}
                  ∈ docs).
  { apply Hin. exists ti. split; [|done]. by eapply list_elem_of_lookup_2. }
  destruct (Hbest (_default_script_query (embed_query emb ti)) docs)
    as (h & rest & -> & Hh & Hmax).
  { intros Hnil. rewrite Hnil in Hmine. by apply elem_of_nil in Hmine. }
  apply Hin in Hh as (t & Ht & ->).
  unfold slice_to. cbn.
  destruct (decide (t = ti)) as [->|Hne]; [done|].
  exfalso. apply (Hmax _ Hmine). cbn. by apply Hsep.
Qed.

(** C3 - Every Document returned by [similarity_search] has empty
    metadata, whatever the store and the world it runs in (so also after
    [add_texts]); and on a store built by [from_texts] with any [metadatas]
    argument the search does return, with empty metadata throughout. *)
Theorem similarity_search_metadata_empty :
  (∀ (self : t) query k (w : World F) docs w',
     similarity_search eng self query k w = (Ok docs, w') →
     Forall (λ d, metadata d = []) docs) ∧
  (∀ texts emb kw metadatas (w : World F) s w1 query k,
     from_texts eng texts emb (<["metadatas" := metadatas]> kw) w = (Ok s, w1) →
     ∃ docs w2,
       similarity_search eng s query k w1 = (Ok docs, w2) ∧
       Forall (λ d, metadata d = []) docs).
Proof.
  assert (Hgen : ∀ (self : t) query k (w : World F) docs w',
     similarity_search eng self query k w = (Ok docs, w') →
     Forall (λ d, metadata d = []) docs).
  { intros self query k w docs w' (hits & ->)%similarity_search_Ok_inv.
    apply Forall_fmap, Forall_fmap, Forall_forall. done. }
  split; [done|].
  intros texts emb kw metadatas w s w1 query k Hbuilt.
  apply from_texts_Ok in Hbuilt
    as (url & first & _ & _ & _ & _ & Hlen & _ & -> & Hix & _).
  eexists _, _. split.
  - apply similarity_search_run. cbn. by rewrite Hix, lookup_insert_eq.
  - apply Forall_fmap, Forall_fmap, Forall_forall. done.
Qed.

(** C4 (the code departs from it) - [add_texts] embeds the texts and then
    reads the name [bulk], which the module never binds: every call raises
    [NameError] and leaves the engine as it was, nothing indexed and nothing
    refreshed. *)
Theorem add_texts_raises_NameError (self : t) texts (w : World F) :
  add_texts self texts w = (Raise (NameError "bulk"), w).
Proof.
  unfold add_texts. step_Ok.
  { apply (for_each_pure _
      (λ '(i, text), {| _op_type := "index"; _index := index_name self;
                        vector := embedding_function self text;
                        text := text |})).
    by intros [i text] ?. }
  done.
Qed.

(** C5 - When no [elasticsearch_url] keyword is passed (or it is the empty
    string) and [ELASTICSEARCH_URL] is unset or empty, [from_texts] raises
    the [ValueError] that describes the missing configuration, and the world
    is as before the call: no request was sent to the engine. *)
Theorem from_texts_missing_url texts emb kw (w : World F) :
  (kw !! "elasticsearch_url" = None ∨
   kw !! "elasticsearch_url" = Some (PStr "")) →
  (environ w !! "ELASTICSEARCH_URL" = None ∨
   environ w !! "ELASTICSEARCH_URL" = Some "") →
  from_texts eng texts emb kw w = (Raise (ValueError missing_url_message), w).
Proof.
  intros Hkw Henv. unfold from_texts.
  apply bind_Raise_eq.
  assert (kwargs_get kw "elasticsearch_url" = PNone ∨
          kwargs_get kw "elasticsearch_url" = PStr "") as [->| ->].
  { unfold kwargs_get. destruct Hkw as [-> | ->]; auto. }
  all: cbn; unfold bind, environ_get, gets;
    by destruct Henv as [-> | ->].
Qed.

(** C9 - With the empty list of texts (and an embedding that maps no texts
    to no vectors) [from_texts] never returns a store; when the endpoint is
    configured, the package installed and the connection string accepted, it
    raises the [IndexError] of [embeddings[0]], having sent no request: the
    engine's indices are those it started with. *)
Theorem from_texts_empty emb kw (w : World F) :
  embed_documents emb [] = [] →
  (∀ s w', from_texts eng [] emb kw w ≠ (Ok s, w')) ∧
  (∀ url,
     configured_endpoint kw w = Some url →
     elasticsearch_installed w = true →
     client_error eng url = None →
     ∃ w', from_texts eng [] emb kw w
           = (Raise (IndexError "list index out of range"), w') ∧
           indices w' = indices w ∧
           requests_sent w' = requests_sent w).
Proof.
  intros Hemb. split.
  - intros s w' (url & first & _ & _ & _ & Hfirst & _)%from_texts_Ok.
    by rewrite Hemb in Hfirst.
  - intros url Hurl Hinst Hconn. unfold from_texts.
    step_Ok.
    { instantiate (1 := w). instantiate (1 := url).
      revert Hurl. unfold configured_endpoint.
      destruct (truthy (kwargs_get kw "elasticsearch_url")); cbn.
      - by intros [= <-].
      - unfold bind, environ_get, gets.
        destruct (environ w !! "ELASTICSEARCH_URL") as [s|]; [|done].
        destruct s; cbn; [done|]. by intros [= <-]. }
    step_Ok.
    { unfold catch, import_elasticsearch. by rewrite Hinst. }
    step_Ok.
    { unfold catch, new_Elasticsearch. by rewrite Hconn. }
    erewrite bind_Ok_eq; [|done].
    erewrite bind_Raise_eq; last first.
    { unfold list_getitem. by rewrite Hemb. }
    eexists. split; [done|]. done.
Qed.

End ElasticFacts.

(* ===================================================================== *)
(** ** Facts about dicts and the flattening of examples                   *)
(* ===================================================================== *)

Lemma dict_get_set_eq k v d : dict_get k (dict_set k v d) = Some v.
Proof.
  induction d as [|[k' v'] d IH]; cbn; [by rewrite decide_True|].
  destruct (decide (k = k')) as [->|Hne]; cbn.
  - by rewrite decide_True.
  - by rewrite decide_False.
Qed.

Lemma dict_get_set_ne k k' v d :
  k' ≠ k → dict_get k' (dict_set k v d) = dict_get k' d.
Proof.
  intros Hne. induction d as [|[k0 v0] d IH]; cbn; [by rewrite decide_False|].
  destruct (decide (k = k0)) as [->|Hk]; cbn.
  - by rewrite !decide_False.
  - destruct (decide (k' = k0)); [done|]. apply IH.
Qed.

(** The code's [" ".join(d.values())] is the flattening of the spec. *)
Lemma str_join_values d : str_join " " (dict_values d) = flatten_values d.
Proof.
  unfold str_join, dict_values.
  induction d as [|[k v] d IH]; [done|].
  destruct d as [|[k' v'] d]; [done|].
  cbn [fmap list_fmap snd String.concat flatten_values] in *.
  by rewrite IH.
Qed.

Lemma flatten_values_keys_irrelevant (d d' : pydict) :
  d.*2 = d'.*2 → flatten_values d = flatten_values d'.
Proof. intros Hv. by rewrite <- !str_join_values; unfold dict_values; rewrite Hv. Qed.

(* ===================================================================== *)
(** ** Facts about the example selector                                   *)
(* ===================================================================== *)

Section SelectorFacts.
Context {F W T : Type} `{!VectorStore F W T}.

Import SemanticSimilarityExampleSelector.

(** The dict comprehension either finds every key, and then holds exactly
    the keys listed (over what [acc] held), or raises at a missing one. *)
Lemma dict_of_keys_total keys eg acc (w : W) :
  Forall (λ key, is_Some (dict_get key eg)) keys →
  ∃ p, dict_of_keys keys eg acc w = (Ok p, w) ∧
       ∀ key, dict_get key p
              = if decide (key ∈ keys) then dict_get key eg
                else dict_get key acc.
Proof.
  intros Hall. revert acc.
  induction Hall as [|k0 keys [v Hv] _ IH]; intros acc.
  - exists acc. split; [done|]. intros key.
    rewrite decide_False; [done|]. apply not_elem_of_nil.
  - cbn [dict_of_keys]. rewrite Hv.
    destruct (IH (dict_set k0 v acc)) as (p & Hp & Hget).
    exists p. split; [done|]. intros key. rewrite Hget.
    destruct (decide (key ∈ keys)) as [Hin|Hnin].
    + rewrite decide_True; [done|]. by right.
    + destruct (decide (key = k0)) as [->|Hne].
      * rewrite decide_True by (by left). by rewrite dict_get_set_eq.
      * rewrite decide_False; [by rewrite dict_get_set_ne|].
        by intros [?|?]%elem_of_cons.
Qed.

Lemma dict_of_keys_cases keys eg acc (w : W) :
  (∃ p, dict_of_keys keys eg acc w = (Ok p, w)) ∨
  (∃ key, dict_of_keys keys eg acc w = (Raise (KeyError key), w) ∧
          key ∈ keys ∧ dict_get key eg = None).
Proof.
  revert acc. induction keys as [|k0 keys IH]; intros acc; cbn.
  - left. by eexists.
  - destruct (dict_get k0 eg) as [v|] eqn:Hv.
    + destruct (IH (dict_set k0 v acc)) as [?|(key & ? & ? & ?)]; [by left|].
      right. exists key. split_and!; [done| |done]. by right.
    + right. exists k0. split_and!; [done| |done]. by left.
Qed.

Lemma dict_of_keys_missing keys eg acc (w : W) key :
  key ∈ keys → dict_get key eg = None →
  ∃ key', dict_of_keys keys eg acc w = (Raise (KeyError key'), w) ∧
          key' ∈ keys ∧ dict_get key' eg = None.
Proof.
  intros Hin Hnone.
  destruct (dict_of_keys_cases keys eg acc w) as [[p Hp]|?]; [|done].
  exfalso. revert acc p Hp.
  induction keys as [|k0 keys IH]; intros acc p; cbn.
  - by apply elem_of_nil in Hin.
  - destruct (dict_get k0 eg) as [v|] eqn:Hv; [|done].
    apply IH. apply elem_of_cons in Hin as [->|?]; [congruence|done].
Qed.

Lemma project_all_missing keys egs (w : W) eg key :
  eg ∈ egs → key ∈ keys → dict_get key eg = None →
  ∃ key' eg',
    for_each (λ eg, dict_of_keys keys eg []) egs w = (Raise (KeyError key'), w) ∧
    key' ∈ keys ∧ eg' ∈ egs ∧ dict_get key' eg' = None.
Proof.
  intros Heg Hkey Hnone.
  induction egs as [|eg0 egs IH]; [by apply elem_of_nil in Heg|].
  cbn [for_each].
  destruct (dict_of_keys_cases keys eg0 [] w)
    as [[p Hp]|(key' & Hr & Hin & Hmiss)].
  - apply elem_of_cons in Heg as [->|Heg].
    { destruct (dict_of_keys_missing keys eg0 [] w key) as (? & Hr & _);
        [done..|]. congruence. }
    destruct (IH Heg) as (key' & eg' & Hr & ? & ? & ?).
    exists key', eg'. unfold bind at 1. rewrite Hp.
    unfold bind at 1. rewrite Hr. split_and!; [done|done| |done]. by right.
  - exists key', eg0. unfold bind at 1. rewrite Hr.
    split_and!; [done|done| |done]. by left.
Qed.

Lemma project_all_total keys egs (w : W) :
  Forall (λ eg, Forall (λ key, is_Some (dict_get key eg)) keys) egs →
  ∃ ps,
    for_each (λ eg, dict_of_keys keys eg []) egs w = (Ok ps, w) ∧
    Forall2 (λ eg p, ∀ key, dict_get key p
                            = if decide (key ∈ keys) then dict_get key eg
                              else None) egs ps.
Proof.
  induction 1 as [|eg egs Heg _ (ps & Hps & Hall)].
  - exists []. split; [done|constructor].
  - destruct (dict_of_keys_total keys eg [] w Heg) as (p & Hp & Hget).
    exists (p :: ps). split.
    + cbn [for_each]. unfold bind at 1. rewrite Hp.
      unfold bind at 1. by rewrite Hps.
    + constructor; [|done]. intros key. by rewrite Hget.
Qed.

(** C6 - With a non-empty allow-list, when some retrieved example lacks
    some listed key, [select_examples] raises [KeyError] for a listed key
    that a retrieved example lacks; it returns no list of examples. *)
Theorem select_examples_missing_key (self : t T) input_variables
    (w : W) docs w1 keys d key :
  example_keys self = Some keys →
  similarity_search (vectorstore self)
    (str_join " " (dict_values input_variables)) (k self) w = (Ok docs, w1) →
  d ∈ docs → key ∈ keys → dict_get key (metadata d) = None →
  ∃ key' d',
    select_examples self input_variables w = (Raise (KeyError key'), w1) ∧
    key' ∈ keys ∧ d' ∈ docs ∧ dict_get key' (metadata d') = None.
Proof.
  intros Hkeys Hsearch Hd Hkey Hnone.
  unfold select_examples. rewrite (bind_Ok_eq _ _ _ _ _ Hsearch), Hkeys.
  destruct keys as [|k0 keys]; [by apply elem_of_nil in Hkey|].
  cbn [keys_given default].
  destruct (project_all_missing (k0 :: keys) (metadata <$> docs) w1
              (metadata d) key) as (key' & eg' & Hr & Hin & Heg & Hmiss);
    [by apply list_elem_of_fmap_2|done..|].
  apply list_elem_of_fmap in Heg as (d' & -> & Hd').
  by exists key', d'.
Qed.

(** C10 - With [example_keys] the empty list, [select_examples] is the
    search followed by the extraction of each Document's metadata: nothing
    is projected away. *)
Theorem select_examples_empty_keys (self : t T) input_variables (w : W) :
  example_keys self = Some [] →
  select_examples self input_variables w
  = (docs <- similarity_search (vectorstore self)
               (str_join " " (dict_values input_variables)) (k self) ;;
     ret (metadata <$> docs)) w.
Proof. intros Hkeys. unfold select_examples. by rewrite Hkeys. Qed.


Lemma from_examples_Ok examples (emb : Embeddings F) k0 kw (w : W) sel w1 :
  from_examples examples emb k0 kw w = (Ok sel, w1) →
  ∃ vs, from_texts (flatten_values <$> examples) emb
          (<["metadatas" := PDicts examples]> kw) w = (Ok vs, w1) ∧
        sel = {| vectorstore := vs; k := k0; example_keys := None |}.
Proof.
  unfold from_examples. intros (vs & wa & Hvs & Hret)%bind_Ok_inv.
  destruct (kw !! "metadatas"); [done|].
  unfold ret in Hret. injection Hret as <- <-.
  exists vs. split; [|done]. rewrite <- Hvs. f_equal.
  apply list_fmap_ext. intros _ d _. symmetry. apply str_join_values.
Qed.

(** C8 (amended) - Over a backend that persists metadata, let the examples
    be stored by [from_examples], let [e] be a stored example whose
    flattened text no other stored example has, and let the search for the
    flattened text of [e] return first a Document with that text.
    Selecting with input [e]: without projection the first example returned
    is [e], complete; with a non-empty allow-list whose keys every retrieved
    example has, the first example returned holds exactly the listed keys,
    each with the value it has in [e]. *)
Theorem example_round_trip examples (emb : Embeddings F) k0 kw (w : W)
    sel w1 e d rest w2 :
  persists_metadata →
  e ∈ examples →
  (∀ e', e' ∈ examples → flatten_values e' = flatten_values e → e' = e) →
  from_examples examples emb k0 kw w = (Ok sel, w1) →
  similarity_search (vectorstore sel) (flatten_values e) k0 w1
  = (Ok (d :: rest), w2) →
  page_content d = flatten_values e →
  (∃ rest', select_examples sel e w1 = (Ok (e :: rest'), w2)) ∧
  (∀ keys,
     keys ≠ [] →
     Forall (λ d, Forall (λ key, is_Some (dict_get key (metadata d))) keys)
       (d :: rest) →
     ∃ p rest',
       select_examples {| vectorstore := vectorstore sel; k := k sel;
                          example_keys := Some keys |} e w1
       = (Ok (p :: rest'), w2) ∧
       ∀ key, dict_get key p
              = if decide (key ∈ keys) then dict_get key e else None).
Proof.
  intros Hpersist He Huniq (vs & Hvs & ->)%from_examples_Ok Hsearch Hd.
  cbn [vectorstore k] in *.
  assert (Hmeta : metadata d = e).
  { destruct (Hpersist _ _ _ _ _ _ _ _ _ _ _
                (eq_sym (length_fmap _ _)) Hvs Hsearch d)
      as (j & Htext & Hj); [by left|].
    rewrite list_lookup_fmap, Hj in Htext. cbn in Htext.
    apply Huniq; [by eapply list_elem_of_lookup_2|congruence]. }
  split.
  - exists (metadata <$> rest). unfold select_examples. cbn.
    rewrite str_join_values, (bind_Ok_eq _ _ _ _ _ Hsearch). cbn.
    by rewrite Hmeta.
  - intros keys Hne Hall.
    destruct (project_all_total keys (metadata <$> (d :: rest)) w2)
      as (ps & Hps & Hget).
    { by apply Forall_fmap. }
    rewrite fmap_cons, Hmeta in Hget.
    apply Forall2_cons_inv_l in Hget as (p & ps' & Hp & _ & ->).
    exists p, ps'. split; [|done].
    unfold select_examples. cbn [vectorstore k example_keys].
    rewrite str_join_values, (bind_Ok_eq _ _ _ _ _ Hsearch).
    destruct keys; [done|]. exact Hps.
Qed.

End SelectorFacts.

(** C7 - Seen from a backend that records its calls: [from_examples] hands
    [from_texts] one text per example, the flattening of that example's
    values, and [select_examples] queries with the flattening of the values
    of [input_variables]; the flattening is the same function in both,
    [" ".join] over the values in iteration order, and the keys play no
    part in it. *)
Theorem flattening_shared :
  (∀ d, str_join " " (dict_values d) = flatten_values d) ∧
  (∀ d d' : pydict, d.*2 = d'.*2 → flatten_values d = flatten_values d') ∧
  (∀ F examples (emb : Embeddings F) k kw log,
     kw !! "metadatas" = None →
     snd (SemanticSimilarityExampleSelector.from_examples
            (T := unit) examples emb k kw log)
     = log ++ [FromTexts (flatten_values <$> examples)
                 (<["metadatas" := PDicts examples]> kw)]) ∧
  (∀ F (self : SemanticSimilarityExampleSelector.t unit) input_variables log,
     snd (SemanticSimilarityExampleSelector.select_examples
            (F := F) self input_variables log)
     = log ++ [SimilaritySearch (flatten_values input_variables)
                 (SemanticSimilarityExampleSelector.k self)]).
Proof.
  split_and!.
  - apply str_join_values.
  - apply flatten_values_keys_irrelevant.
  - intros F examples emb k kw log Hkw.
    unfold SemanticSimilarityExampleSelector.from_examples, bind.
    rewrite Hkw. cbn. do 3 f_equal.
    apply list_fmap_ext. intros _ d _. apply str_join_values.
  - intros F self iv log.
    unfold SemanticSimilarityExampleSelector.select_examples, bind. cbn.
    rewrite str_join_values.
    by destruct (SemanticSimilarityExampleSelector.keys_given _).
Qed.

(* ===================================================================== *)
(** ** Facts about the reference engines and backends                     *)
(* ===================================================================== *)

Lemma insert_hit_head q x hits :
  ∃ h rest, insert_hit q x hits = h :: rest ∧
    (h = x ∨ head hits = Some h) ∧
    (cosine_key q (entry_vector x) <= cosine_key q (entry_vector h))%Q ∧
    ∀ y, head hits = Some y →
      (cosine_key q (entry_vector y) <= cosine_key q (entry_vector h))%Q.
Proof.
  destruct hits as [|y hits]; cbn.
  - exists x, []. split_and!; [done|by left|apply Qle_refl|done].
  - destruct (Qlt_le_dec _ _) as [Hlt|Hle].
    + eexists y, _. split_and!; [done|by right|by apply Qlt_le_weak|].
      intros ? [= <-]. apply Qle_refl.
    + eexists x, _. split_and!; [done|by left|apply Qle_refl|].
      by intros ? [= <-].
Qed.

Lemma rank_by_cosine_head query docs :
  docs ≠ [] →
  ∃ h rest, rank_by_cosine query docs = h :: rest ∧ h ∈ docs ∧
    ∀ e, e ∈ docs →
      (cosine_key (query_vector query) (entry_vector e)
       <= cosine_key (query_vector query) (entry_vector h))%Q.
Proof.
  unfold rank_by_cosine. set (q := query_vector query). clearbody q.
  induction docs as [|x docs IH]; [done|]. intros _. cbn [foldr].
  destruct docs as [|x' docs].
  - exists x, []. split_and!; [done|by left|].
    intros e ->%list_elem_of_singleton. apply Qle_refl.
  - destruct IH as (h0 & r0 & Hr & Hh0 & Hmax); [done|].
    rewrite Hr.
    destruct (insert_hit_head q x (h0 :: r0))
      as (h & rest & -> & Hh & Hx & Hhead).
    exists h, rest. split_and!; [done| |].
    + destruct Hh as [->|[= ->]]; [by left|by right].
    + intros e [->|He]%elem_of_cons; [done|].
      eapply Qle_trans; [by apply Hmax|by apply Hhead].
Qed.

(** The engine that lists every document ranks a best one first. *)
Lemma full_engine_best_first : best_first full_engine cosine_outscores.
Proof.
  intros query docs Hne.
  destruct (rank_by_cosine_head query docs Hne) as (h & rest & Hr & Hh & Hmax).
  exists h, rest. split_and!; [done..|].
  intros e He. unfold cosine_outscores. apply Qle_not_lt. by apply Hmax.
Qed.

Lemma memory_from_texts_texts {F} texts (emb : Embeddings F) kw w s w1 :
  MemoryStore.from_texts texts emb kw w = (Ok s, w1) →
  page_content <$> s = texts.
Proof.
  unfold MemoryStore.from_texts.
  destruct (kwargs_get kw "metadatas") as [|?|metadatas]; [|done|].
  - unfold ret. intros [= <- _]. rewrite <- list_fmap_compose.
    by rewrite <- (list_fmap_id texts) at 2.
  - destruct (decide _) as [Hlen|]; [|done].
    unfold ret. intros [= <- _].
    revert metadatas Hlen. induction texts as [|t texts IH];
      intros [|m ms] Hlen; try done.
    cbn. f_equal. apply IH. by injection Hlen.
Qed.

(** The in-memory backend persists metadata. *)
Lemma memory_persists {F} :
  persists_metadata (F := F) (W := unit) (T := list Document).
Proof.
  intros texts emb metadatas kw w s w1 query k docs w2 Hlen Hbuilt Hsearch d Hd.
  cbn in Hbuilt, Hsearch.
  unfold MemoryStore.from_texts, kwargs_get in Hbuilt.
  rewrite lookup_insert_eq in Hbuilt. cbn in Hbuilt.
  rewrite decide_True in Hbuilt by done.
  unfold ret in Hbuilt. injection Hbuilt as <- <-.
  unfold MemoryStore.similarity_search, ret in Hsearch.
  injection Hsearch as <- <-.
  apply slice_to_subseteq in Hd.
  assert (Hin : d ∈ zip_with mkDocument texts metadatas).
  { apply elem_of_app in Hd as [Hd|Hd];
      by apply list_elem_of_filter in Hd as [_ ?]. }
  apply list_elem_of_lookup in Hin as [j Hj].
  apply lookup_zip_with_Some in Hj as (t & m & -> & Ht & Hm).
  by exists j.
Qed.

(* ===================================================================== *)
(** ** The theorems at concrete inputs                                    *)
(* ===================================================================== *)

(** C1 (the code departs from it) - Eleven texts are indexed and eleven
    Documents are asked for.  The search request names no page size, the
    engine answers with a page of ten hits, and [similarity_search] returns
    ten Documents, not the eleven entries of the index. *)
Theorem similarity_search_page_of_ten :
  ∃ s w1 ix docs w2,
    ElasticVectorSearch.from_texts (paged_engine 10) eleven_texts
      length_embedding ∅ sample_world = (Ok s, w1) ∧
    indices w1 !! ElasticVectorSearch.index_name s = Some ix ∧
    length (ix_docs ix) = 11%nat ∧
    ElasticVectorSearch.similarity_search (paged_engine 10) s "a" 11 w1
    = (Ok docs, w2) ∧
    length docs = 10%nat.
Proof.
  eexists _, _, _, _, _.
  split; [vm_compute; reflexivity|].
  split; [vm_compute; reflexivity|].
  split; [reflexivity|].
  split; [vm_compute; reflexivity|].
  reflexivity.
Qed.

Lemma similarity_search_length_witness :
  ∃ s w1,
    ElasticVectorSearch.from_texts full_engine ["ab"; "cd"; "e"]
      length_embedding ∅ sample_world = (Ok s, w1) ∧
    ∃ ix docs w2,
      indices w1 !! ElasticVectorSearch.index_name s = Some ix ∧
      length (ix_docs ix) = 3%nat ∧
      ElasticVectorSearch.similarity_search full_engine s "e" 5 w1
      = (Ok docs, w2) ∧
      Z.of_nat (length docs) ≤ 5 ∧
      length docs
      = Nat.min (Z.to_nat 5)
          (length (rank_hits full_engine
                     (ElasticVectorSearch._default_script_query
                        (embed_query length_embedding "e"))
                     (ix_docs ix))) ∧
      (length (rank_hits full_engine
                 (ElasticVectorSearch._default_script_query
                    (embed_query length_embedding "e"))
                 (ix_docs ix)) = length (ix_docs ix) →
       Z.of_nat 3 ≤ 5 →
       length docs = 3%nat).
Proof.
  eexists _, _. split; [vm_compute; reflexivity|].
  apply (similarity_search_length full_engine ["ab"; "cd"; "e"]
           length_embedding ∅ sample_world); [lia|].
  vm_compute; reflexivity.
Defined.

(** C2 (as stated, refuted) - "ab" and "cd" have the same embedding; the
    store built from both, queried with "cd" for one Document, returns the
    Document of "ab". *)
Lemma identity_retrieval_collision :
  ["ab"; "cd"] !! 1%nat = Some "cd" ∧
  embed_documents length_embedding ["ab"; "cd"]
  = embed_query length_embedding <$> ["ab"; "cd"] ∧
  ∃ s w1 w2,
    ElasticVectorSearch.from_texts full_engine ["ab"; "cd"]
      length_embedding ∅ sample_world = (Ok s, w1) ∧
    ElasticVectorSearch.similarity_search full_engine s "cd" 1 w1
    = (Ok [Document_of_text "ab"], w2).
Proof.
  split; [reflexivity|]. split; [reflexivity|].
  eexists _, _, _.
  split; vm_compute; reflexivity.
Qed.

Lemma identity_retrieval_witness :
  ∃ s w1,
    ElasticVectorSearch.from_texts full_engine ["ab"; "e"]
      length_embedding ∅ sample_world = (Ok s, w1) ∧
    ∃ w2, ElasticVectorSearch.similarity_search full_engine s "e" 1 w1
          = (Ok [Document_of_text "e"], w2).
Proof.
  eexists _, _. split; [vm_compute; reflexivity|].
  apply (identity_retrieval full_engine cosine_outscores ["ab"; "e"]
           length_embedding ∅ sample_world _ _ 1%nat "e").
  - apply full_engine_best_first.
  - reflexivity.
  - reflexivity.
  - intros t Ht Hne.
    apply elem_of_cons in Ht as [->|Ht]; [reflexivity|].
    apply list_elem_of_singleton in Ht. congruence.
  - vm_compute; reflexivity.
Defined.

Lemma similarity_search_metadata_empty_witness :
  Forall (λ d, metadata d = [])
    [Document_of_text "2+2 4"; Document_of_text "ocean color blue"] ∧
  ∃ docs w2,
    ElasticVectorSearch.similarity_search full_engine sample_store
      "2+2 4" 4 sample_indexed_world = (Ok docs, w2) ∧
    Forall (λ d, metadata d = []) docs.
Proof.
  split.
  - eapply (proj1 (similarity_search_metadata_empty full_engine)
              sample_store "2+2 4" 4 sample_indexed_world).
    vm_compute; reflexivity.
  - apply (proj2 (similarity_search_metadata_empty full_engine)
             ["2+2 4"; "ocean color blue"] length_embedding ∅
             (PDicts [example_sum; example_ocean]) sample_world).
    vm_compute; reflexivity.
Defined.

(** C4 at an input: one text added to a store just built. *)
Example add_texts_after_from_texts :
  ∃ s w1,
    ElasticVectorSearch.from_texts full_engine ["ab"] length_embedding ∅
      sample_world = (Ok s, w1) ∧
    ElasticVectorSearch.add_texts s ["cd"] w1 = (Raise (NameError "bulk"), w1).
Proof.
  eexists _, _. split; vm_compute; reflexivity.
Qed.

Lemma from_texts_missing_url_witness :
  ElasticVectorSearch.from_texts full_engine ["ab"] length_embedding
    (<["elasticsearch_url" := PStr ""]> ∅) bare_world
  = (Raise (ValueError ElasticVectorSearch.missing_url_message), bare_world).
Proof.
  apply from_texts_missing_url.
  - right. reflexivity.
  - left. reflexivity.
Defined.

Lemma from_texts_empty_witness :
  (∀ s w', ElasticVectorSearch.from_texts full_engine [] length_embedding ∅
             sample_world ≠ (Ok s, w')) ∧
  ∃ w', ElasticVectorSearch.from_texts full_engine [] length_embedding ∅
          sample_world
        = (Raise (IndexError "list index out of range"), w') ∧
        indices w' = indices sample_world ∧
        requests_sent w' = requests_sent sample_world.
Proof.
  destruct (from_texts_empty full_engine length_embedding ∅ sample_world)
    as [Hnever Hraises]; [reflexivity|].
  split; [exact Hnever|].
  apply (Hraises (PStr "http://localhost:9200")); reflexivity.
Defined.

Lemma select_examples_missing_key_witness :
  ∃ key' d',
    SemanticSimilarityExampleSelector.select_examples (F := Z)
      (selector_over memory_incomplete (Some ["a"])) [("q", "2+2")] tt
    = (Raise (KeyError key'), tt) ∧
    key' ∈ ["a"] ∧ d' ∈ memory_incomplete ∧
    dict_get key' (metadata d') = None.
Proof.
  apply (select_examples_missing_key (F := Z)
           (selector_over memory_incomplete (Some ["a"])) [("q", "2+2")] tt
           memory_incomplete tt ["a"]
           (mkDocument "why" example_no_answer) "a").
  - reflexivity.
  - vm_compute; reflexivity.
  - right. left.
  - left.
  - reflexivity.
Defined.

Lemma select_examples_empty_keys_witness :
  SemanticSimilarityExampleSelector.select_examples (F := Z)
    (selector_over memory_examples (Some [])) [("q", "3+3")] tt
  = (Ok [example_sum; example_ocean], tt).
Proof.
  rewrite (select_examples_empty_keys (F := Z)
             (selector_over memory_examples (Some [])) [("q", "3+3")] tt);
    reflexivity.
Defined.

Lemma flattening_shared_witness :
  flatten_values example_sum = flatten_values [("x", "2+2"); ("y", "4")] ∧
  snd (SemanticSimilarityExampleSelector.from_examples (T := unit)
         [example_sum; example_ocean] length_embedding 1 ∅ [])
  = [FromTexts ["2+2 4"; "ocean color blue"]
       (<["metadatas" := PDicts [example_sum; example_ocean]]> ∅)].
Proof.
  destruct flattening_shared as (_ & Hkeys & Hfrom & _). split.
  - apply (Hkeys example_sum [("x", "2+2"); ("y", "4")]). reflexivity.
  - apply (Hfrom Z [example_sum; example_ocean] length_embedding 1 ∅ []).
    reflexivity.
Defined.

(** C8 (as stated, refuted) - Two different examples flatten to the same
    text "a b c".  Both are stored in a backend that persists metadata;
    selecting one example with input identical to the second stored example
    returns the first. *)
Lemma example_round_trip_collision :
  example_split_late ≠ example_split_early ∧
  ∃ sel,
    SemanticSimilarityExampleSelector.from_examples (F := Z) (W := unit)
      (T := list Document)
      [example_split_late; example_split_early] length_embedding 1 ∅ tt
    = (Ok sel, tt) ∧
    SemanticSimilarityExampleSelector.select_examples (F := Z)
      sel example_split_early tt
    = (Ok [example_split_late], tt).
Proof.
  split; [discriminate|].
  eexists. split; vm_compute; reflexivity.
Qed.

Lemma example_round_trip_witness :
  (∃ rest,
     SemanticSimilarityExampleSelector.select_examples (F := Z)
       (selector_over memory_examples None) example_ocean tt
     = (Ok (example_ocean :: rest), tt)) ∧
  ∃ p rest,
    SemanticSimilarityExampleSelector.select_examples (F := Z)
      (selector_over memory_examples (Some ["a"])) example_ocean tt
    = (Ok (p :: rest), tt) ∧
    ∀ key, dict_get key p
           = if decide (key ∈ ["a"]) then dict_get key example_ocean
             else None.
Proof.
  destruct (example_round_trip (F := Z) [example_sum; example_ocean]
              length_embedding 4 ∅ tt (selector_over memory_examples None) tt
              example_ocean
              (mkDocument "ocean color blue" example_ocean)
              [mkDocument "2+2 4" example_sum] tt)
    as [Hfull Hproj].
  - apply memory_persists.
  - right. left.
  - intros e' He' Hflat.
    apply elem_of_cons in He' as [->|He']; [discriminate|].
    by apply list_elem_of_singleton in He'.
  - vm_compute; reflexivity.
  - vm_compute; reflexivity.
  - reflexivity.
  - split; [exact Hfull|].
    apply (Hproj ["a"]); [discriminate|].
    repeat constructor; by eexists.
Defined.

(* ===================================================================== *)
(** ** More about [ElasticVectorSearch.from_texts]                        *)
(* ===================================================================== *)

Section ElasticFromTexts.
Context {F : Type}.
Variable eng : Engine F.

Import ElasticVectorSearch.

Lemma resolve_url_run kw (w : World F) url :
  configured_endpoint kw w = Some url →
  (if negb (truthy (kwargs_get kw "elasticsearch_url")) then
     elasticsearch_url <- environ_get "ELASTICSEARCH_URL" ;;
     match elasticsearch_url with
     | PNone | PStr "" => raise (ValueError missing_url_message)
     | _ => ret elasticsearch_url
     end
   else ret (kwargs_get kw "elasticsearch_url")) w = (Ok url, w).
Proof.
  unfold configured_endpoint.
  destruct (truthy (kwargs_get kw "elasticsearch_url")); cbn.
  - by intros [= <-].
  - unfold bind, environ_get, gets.
    destruct (environ w !! "ELASTICSEARCH_URL") as [s|]; [|done].
    destruct s; cbn; [done|]. by intros [= <-].
Qed.

Lemma import_run (w : World F) :
  elasticsearch_installed w = true →
  catch import_elasticsearch
    (λ e, match e with
          | ImportError _ => raise (ValueError import_error_message)
          | _ => raise e
          end) w = (Ok tt, w).
Proof. intros Hinst. unfold catch, import_elasticsearch. by rewrite Hinst. Qed.

Lemma connect_run url (w : World F) :
  client_error eng url = None →
  catch (new_Elasticsearch eng url)
    (λ e, match e with
          | ValueError msg => raise (ValueError (misformatted_message msg))
          | _ => raise e
          end) w = (Ok {| hosts := url |}, w).
Proof. intros Hconn. unfold catch, new_Elasticsearch. by rewrite Hconn. Qed.

(** The steps of [from_texts] up to the client, when they succeed. *)
Ltac connect Hurl Hinst Hconn :=
  unfold from_texts;
  step_Ok; [by apply resolve_url_run, Hurl|];
  step_Ok; [by apply import_run, Hinst|];
  step_Ok; [by apply connect_run, Hconn|].

(** X1 - [from_texts] returns a store only when an endpoint is configured
    and accepted by the client, the package is installed, the index name
    drawn was not taken, and the batch embedding answered with at least one
    vector and at least as many vectors as there are texts. *)
Theorem from_texts_returns_only_if texts emb kw (w : World F) s w1 :
  from_texts eng texts emb kw w = (Ok s, w1) →
  (∃ url, configured_endpoint kw w = Some url ∧ client_error eng url = None) ∧
  elasticsearch_installed w = true ∧
  indices w !! uuid_stream w (uuid_drawn w) = None ∧
  embed_documents emb texts ≠ [] ∧
  (length texts ≤ length (embed_documents emb texts))%nat.
Proof.
  intros (url & first & Hurl & Hinst & Hconn & Hfirst & Hlen
          & Hfresh & _)%from_texts_Ok.
  split_and!; [by exists url|done..| |done].
  intros Hnil. by rewrite Hnil in Hfirst.
Qed.

(** X2 - After [from_texts] has returned, the index of the store holds one
    searchable entry per text, in the order of the texts, entry [i] made of
    [texts[i]] and [embeddings[i]]; nothing is left waiting for a refresh;
    the schema's [dims] is the length of the first vector; and every other
    index of the engine is as it was. *)
Theorem from_texts_read_after_write texts emb kw (w : World F) s w1 :
  from_texts eng texts emb kw w = (Ok s, w1) →
  ∃ ix first,
    indices w1 !! index_name s = Some ix ∧
    ix_pending ix = [] ∧
    length (ix_docs ix) = length texts ∧
    (∀ i t, texts !! i = Some t →
       ∃ v, embed_documents emb texts !! i = Some v ∧
            ix_docs ix !! i = Some {| entry_text := t; entry_vector := v |}) ∧
    embed_documents emb texts !! 0%nat = Some first ∧
    ix_mappings ix = Some (_default_text_mapping (length first)) ∧
    (∀ other, other ≠ index_name s →
       indices w1 !! other = indices w !! other).
Proof.
  intros (url & first & _ & _ & _ & Hfirst & Hlen & _ & -> & Hix & _)
    %from_texts_Ok.
  eexists _, first. cbn [index_name].
  split; [by rewrite Hix, lookup_insert_eq|]. cbn [ix_pending ix_docs ix_mappings].
  split_and!; [done|by apply entries_of_length| |done|done|].
  - intros i t Ht.
    destruct (embed_documents emb texts !! i) as [v|] eqn:Hv.
    + exists v. split; [done|]. unfold entries_of.
      apply lookup_zip_with_Some. by exists t, v.
    + apply lookup_ge_None in Hv. apply lookup_lt_Some in Ht. lia.
  - intros other Hne. by rewrite Hix, lookup_insert_ne.
Qed.

(** X3 - When the [elasticsearch] package cannot be imported, [from_texts]
    with a configured endpoint raises the [ValueError] that asks to install
    it; no index name is drawn and no request is sent. *)
Theorem from_texts_not_installed texts emb kw (w : World F) url :
  configured_endpoint kw w = Some url →
  elasticsearch_installed w = false →
  from_texts eng texts emb kw w = (Raise (ValueError import_error_message), w).
Proof.
  intros Hurl Hinst. unfold from_texts.
  step_Ok; [by apply resolve_url_run, Hurl|].
  apply bind_Raise_eq. unfold catch, import_elasticsearch. by rewrite Hinst.
Qed.

(** X4 - When the client refuses the connection string, [from_texts] raises
    a [ValueError] whose message wraps the client's own; no index name is
    drawn and no request is sent. *)
Theorem from_texts_misformatted_url texts emb kw (w : World F) url msg :
  configured_endpoint kw w = Some url →
  elasticsearch_installed w = true →
  client_error eng url = Some msg →
  from_texts eng texts emb kw w
  = (Raise (ValueError ("Your elasticsearch client string is misformatted. "
                        +:+ "Got error: " +:+ msg +:+ " ")), w).
Proof.
  intros Hurl Hinst Hconn. unfold from_texts.
  step_Ok; [by apply resolve_url_run, Hurl|].
  step_Ok; [by apply import_run, Hinst|].
  apply bind_Raise_eq. unfold catch, new_Elasticsearch. by rewrite Hconn.
Qed.

(** X5 - The store connects to the [elasticsearch_url] keyword whenever
    that is given and not empty, whatever the environment holds; the
    environment variable is used, and must then be set and not empty, only
    when the keyword is missing or empty. *)
Theorem from_texts_keyword_over_environment texts emb kw (w : World F) s w1 :
  from_texts eng texts emb kw w = (Ok s, w1) →
  (truthy (kwargs_get kw "elasticsearch_url") = true →
   hosts (client s) = kwargs_get kw "elasticsearch_url") ∧
  (truthy (kwargs_get kw "elasticsearch_url") = false →
   ∃ v, environ w !! "ELASTICSEARCH_URL" = Some v ∧ v ≠ "" ∧
        hosts (client s) = PStr v).
Proof.
  intros (url & first & Hurl & _ & _ & _ & _ & _ & -> & _)%from_texts_Ok.
  cbn [client hosts]. unfold configured_endpoint in Hurl.
  destruct (truthy (kwargs_get kw "elasticsearch_url")).
  - split; [|done]. intros _. congruence.
  - split; [done|]. intros _.
    destruct (environ w !! "ELASTICSEARCH_URL") as [v|]; [|done].
    exists v. destruct (String.eqb_spec v ""); [done|].
    split_and!; [done|done|congruence].
Qed.

(** X6 - When the batch embedding answers with at least one vector but
    fewer vectors than texts, [from_texts] raises [IndexError] while it
    builds the bulk request: the index has been created by then and stays
    behind, empty; nothing was indexed and nothing refreshed. *)
Theorem from_texts_short_embeddings texts emb kw (w : World F) url first :
  configured_endpoint kw w = Some url →
  elasticsearch_installed w = true →
  client_error eng url = None →
  indices w !! uuid_stream w (uuid_drawn w) = None →
  embed_documents emb texts !! 0%nat = Some first →
  (length (embed_documents emb texts) < length texts)%nat →
  ∃ w',
    from_texts eng texts emb kw w
    = (Raise (IndexError "list index out of range"), w') ∧
    indices w'
    = <[uuid_stream w (uuid_drawn w) :=
          {| ix_mappings := Some (_default_text_mapping (length first));
             ix_docs := []; ix_pending := [] |}]> (indices w) ∧
    requests_sent w'
    = requests_sent w
      ++ [IndicesCreate (uuid_stream w (uuid_drawn w))
            (_default_text_mapping (length first))].
Proof.
  intros Hurl Hinst Hconn Hfresh Hfirst Hshort.
  connect Hurl Hinst Hconn.
  step_Ok; [done|].
  step_Ok; [unfold list_getitem; by rewrite Hfirst|].
  step_Ok.
  { unfold indices_create, bind, send, modify, gets. cbn.
    by rewrite Hfresh. }
  erewrite bind_Raise_eq; last first.
  { unfold enumerate.
    apply (requests_loop_Raise _ (embed_documents emb texts) texts 0).
    by rewrite drop_0. }
  by eexists.
Qed.

End ElasticFromTexts.

(* ===================================================================== *)
(** ** More about [ElasticVectorSearch.similarity_search]                 *)
(* ===================================================================== *)

Section ElasticSearching.
Context {F : Type}.
Variable eng : Engine F.

Import ElasticVectorSearch.

(** X7 - Once the query is embedded (the embedding function is a pure
    function here; a call that raises is outside this statement),
    [similarity_search] sends exactly one request, whether the engine then
    finds the index or not: a search of the store's index scored by the
    cosine script against the embedding of the query.  It leaves the
    engine's indices, the environment and the supply of index names as they
    were. *)
Theorem similarity_search_read_only (self : t) query k (w : World F) :
  let w' := snd (similarity_search eng self query k w) in
  requests_sent w'
  = requests_sent w
    ++ [SearchIndex (index_name self)
          {| source := "cosineSimilarity(params.query_vector, 'vector') + 1.0";
             query_vector := embedding_function self query |}] ∧
  indices w' = indices w ∧
  environ w' = environ w ∧
  uuid_drawn w' = uuid_drawn w.
Proof.
  unfold similarity_search, client_search, bind, send, modify, gets. cbn.
  by destruct (indices w !! index_name self).
Qed.

(** X8 - [k] is used as a slice bound and nothing else: with [k = 0] the
    result is empty, and with a negative [k] no error is raised; the hits of
    the response are returned in order with the last [-k] of them left
    out. *)
Theorem similarity_search_nonpositive_k (self : t) query k (w : World F) ix :
  indices w !! index_name self = Some ix →
  k ≤ 0 →
  ∃ docs w',
    similarity_search eng self query k w = (Ok docs, w') ∧
    (k = 0 → docs = []) ∧
    (k < 0 →
     page_content <$> docs
     = entry_text <$>
         take (length (rank_hits eng
                         (_default_script_query (embedding_function self query))
                         (ix_docs ix)) - Z.to_nat (- k))
           (rank_hits eng
              (_default_script_query (embedding_function self query))
              (ix_docs ix))).
Proof.
  intros Hix Hk. eexists _, _.
  split; [by apply similarity_search_run|].
  rewrite <- !list_fmap_compose. unfold slice_to. split.
  - by intros ->.
  - intros Hneg. destruct (Z.leb_spec 0 k) as [H0|H0]; [lia|].
    apply list_fmap_ext. by intros _ [] _.
Qed.

(** X9 - Asking for more never reorders: for [0 ≤ k ≤ k'] the Documents
    returned for [k] are the first [k] of those returned for [k']. *)
Theorem similarity_search_prefix (self : t) query k k' (w : World F) ix :
  indices w !! index_name self = Some ix →
  0 ≤ k → k ≤ k' →
  ∃ docs docs' w',
    similarity_search eng self query k w = (Ok docs, w') ∧
    similarity_search eng self query k' w = (Ok docs', w') ∧
    docs = take (Z.to_nat k) docs'.
Proof.
  intros Hix Hk Hk'. eexists _, _, _.
  split; [by apply similarity_search_run|].
  split; [by apply similarity_search_run|].
  rewrite <- !fmap_take. do 2 f_equal. unfold slice_to.
  destruct (Z.leb_spec 0 k); [|lia]. destruct (Z.leb_spec 0 k'); [|lia].
  rewrite take_take. f_equal. lia.
Qed.

(** X10 - Stores are isolated: a second [from_texts] creates an index of
    another name and leaves the index of the first store untouched, so a
    search of the first store returns the same Documents before and after
    the second store is built. *)
Theorem from_texts_isolated texts emb kw texts' emb' kw'
    (w : World F) s w1 s' w2 query k :
  from_texts eng texts emb kw w = (Ok s, w1) →
  from_texts eng texts' emb' kw' w1 = (Ok s', w2) →
  index_name s' ≠ index_name s ∧
  indices w2 !! index_name s = indices w1 !! index_name s ∧
  fst (similarity_search eng s query k w2)
  = fst (similarity_search eng s query k w1).
Proof.
  intros (url & first & _ & _ & _ & _ & _ & _ & -> & Hix & _)%from_texts_Ok
         (url' & first' & _ & _ & _ & _ & _ & Hfresh & -> & Hix' & _)%from_texts_Ok.
  cbn [index_name].
  assert (Hne : uuid_stream w1 (uuid_drawn w1) ≠ uuid_stream w (uuid_drawn w)).
  { intros Heq. rewrite Heq, Hix, lookup_insert_eq in Hfresh. done. }
  assert (Hsame : indices w2 !! uuid_stream w (uuid_drawn w)
                  = indices w1 !! uuid_stream w (uuid_drawn w)).
  { by rewrite Hix', lookup_insert_ne. }
  split_and!; [done..|].
  unfold similarity_search, client_search, bind, send, modify, gets. cbn.
  rewrite Hsame. by destruct (indices w1 !! uuid_stream w (uuid_drawn w)).
Qed.

(** X11 - Against an engine whose response lists every document of the
    index, [similarity_search] on a store built by [from_texts] returns,
    for [k ≥ 0], exactly [min(k, len(texts))] Documents, each with the text
    of one of the texts the store was built from. *)
Theorem similarity_search_complete_engine texts emb kw
    (w : World F) s w1 query k :
  lists_every_document eng →
  0 ≤ k →
  from_texts eng texts emb kw w = (Ok s, w1) →
  ∃ docs w2,
    similarity_search eng s query k w1 = (Ok docs, w2) ∧
    length docs = Nat.min (Z.to_nat k) (length texts) ∧
    ∀ d, d ∈ docs → page_content d ∈ texts.
Proof.
  intros Hall Hk
    (url & first & _ & _ & _ & _ & Hlen & _ & -> & Hix & _)%from_texts_Ok.
  eexists _, _.
  split; [apply similarity_search_run; cbn; by rewrite Hix, lookup_insert_eq|].
  cbn [ix_docs embedding_function].
  set (hits := rank_hits eng _ _).
  assert (Hperm : hits ≡ₚ entries_of texts (embed_documents emb texts))
    by apply Hall.
  split.
  - rewrite !length_fmap, slice_to_length by done.
    by rewrite Hperm, entries_of_length.
  - intros d (t & -> & (e & -> & He)%list_elem_of_fmap)%list_elem_of_fmap.
    apply slice_to_subseteq in He. rewrite Hperm in He. cbn.
    unfold entries_of in He.
    apply list_elem_of_lookup in He as [i Hi].
    apply lookup_zip_with_Some in Hi as (t & v & -> & Ht & _). cbn.
    by eapply list_elem_of_lookup_2.
Qed.

End ElasticSearching.

(* ===================================================================== *)
(** ** More about the example selector                                    *)
(* ===================================================================== *)

Lemma dict_set_fresh k v (d : pydict) :
  k ∉ d.*1 → dict_set k v d = d ++ [(k, v)].
Proof.
  induction d as [|[k' v'] d IH]; [done|]. cbn.
  intros Hk. apply not_elem_of_cons in Hk as [Hne Hk].
  rewrite decide_False by done. by rewrite IH.
Qed.

Section SelectorMore.
Context {F W T : Type} `{!VectorStore F W T}.

Import SemanticSimilarityExampleSelector.

(** With keys that are pairwise different and all present, the dict
    comprehension appends them to [acc] in the order they are listed. *)
Lemma dict_of_keys_in_order keys eg acc (w : W) :
  NoDup keys →
  Forall (λ key, key ∉ acc.*1) keys →
  Forall (λ key, is_Some (dict_get key eg)) keys →
  dict_of_keys keys eg acc w
  = (Ok (acc ++ ((λ key, (key, default "" (dict_get key eg))) <$> keys)), w).
Proof.
  intros Hnd. revert acc.
  induction Hnd as [|k0 keys Hk0 Hnd IH]; intros acc Hfresh Hall.
  - cbn. by rewrite app_nil_r.
  - apply Forall_cons in Hfresh as [Hk0acc Hfresh].
    apply Forall_cons in Hall as [[v Hv] Hall].
    cbn [dict_of_keys]. rewrite Hv. cbn.
    rewrite dict_set_fresh by done. rewrite IH; [|..|done].
    + rewrite <- app_assoc, Hv. done.
    + apply Forall_forall. intros key Hkey.
      rewrite fmap_app. cbn. rewrite elem_of_app, list_elem_of_singleton.
      intros [?| ->]; [|done].
      by eapply Forall_forall in Hfresh.
Qed.

(** X12 - With an allow-list of pairwise different keys that every
    retrieved example has, [select_examples] returns, for each retrieved
    Document in order, the listed fields in the order of the allow-list
    (not in the order of the stored example), each with its stored value. *)
Theorem select_examples_in_key_order (self : t T) input_variables (w : W)
    docs w1 keys :
  example_keys self = Some keys →
  keys ≠ [] →
  NoDup keys →
  similarity_search (vectorstore self)
    (str_join " " (dict_values input_variables)) (k self) w = (Ok docs, w1) →
  Forall (λ d, Forall (λ key, is_Some (dict_get key (metadata d))) keys) docs →
  select_examples self input_variables w
  = (Ok ((λ d, (λ key, (key, default "" (dict_get key (metadata d))))
                 <$> keys) <$> docs), w1).
Proof.
  intros Hkeys Hne Hnd Hsearch Hall.
  unfold select_examples. rewrite (bind_Ok_eq _ _ _ _ _ Hsearch), Hkeys.
  destruct keys as [|k0 keys]; [done|]. cbn [keys_given default].
  clear Hsearch Hkeys.
  induction Hall as [|d docs' Hd _ IH]; [done|].
  rewrite !fmap_cons. cbn [for_each]. unfold bind at 1.
  rewrite dict_of_keys_in_order; [|done| |done].
  - unfold bind at 1. by rewrite IH.
  - apply Forall_forall. intros ? _. apply not_elem_of_nil.
Qed.

(** Each comprehension that returns leaves the world alone and yields a dict
    whose items are items of the example. *)
Lemma dict_of_keys_sub keys eg acc (w : W) p w' :
  dict_of_keys keys eg acc w = (Ok p, w') →
  w' = w ∧
  ∀ key v, dict_get key p = Some v →
    dict_get key eg = Some v ∨ dict_get key acc = Some v.
Proof.
  revert acc. induction keys as [|k0 keys IH]; intros acc; cbn.
  - unfold ret. intros [= <- <-]. eauto.
  - destruct (dict_get k0 eg) as [v0|] eqn:Hv0; [|done].
    intros [-> Hsub]%IH. split; [done|]. intros key v Hp.
    destruct (Hsub key v Hp) as [?|Hacc]; [by left|].
    destruct (decide (key = k0)) as [->|Hne].
    + rewrite dict_get_set_eq in Hacc. left. congruence.
    + rewrite dict_get_set_ne in Hacc by done. by right.
Qed.

(** X13 - [select_examples] never invents a field: when it returns, it
    returns one example per retrieved Document, in the same order, and
    every field of a returned example is a field of the metadata of its
    Document, with the same value. *)
Theorem select_examples_sub_metadata (self : t T) input_variables (w : W)
    docs w1 examples w2 :
  similarity_search (vectorstore self)
    (str_join " " (dict_values input_variables)) (k self) w = (Ok docs, w1) →
  select_examples self input_variables w = (Ok examples, w2) →
  w2 = w1 ∧
  Forall2 (λ d e, ∀ key v, dict_get key e = Some v →
                           dict_get key (metadata d) = Some v)
    docs examples.
Proof.
  intros Hsearch. unfold select_examples.
  rewrite (bind_Ok_eq _ _ _ _ _ Hsearch).
  destruct (keys_given (example_keys self)).
  - generalize (default [] (example_keys self)). intros keys.
    clear Hsearch. revert examples.
    induction docs as [|d docs IH]; intros examples; cbn [fmap list_fmap for_each].
    + unfold ret. intros [= <- <-]. split; [done|constructor].
    + intros (p & wa & Hp & Hrest)%bind_Ok_inv.
      apply dict_of_keys_sub in Hp as [-> Hsub].
      apply bind_Ok_inv in Hrest as (ps & wb & Hps & Hret).
      unfold ret in Hret. injection Hret as <- <-.
      apply IH in Hps as [-> Hall]. split; [done|].
      constructor; [|done]. intros key v Hv.
      by destruct (Hsub key v Hv).
  - unfold ret. intros [= <- <-]. split; [done|].
    apply Forall2_fmap_r, Forall_Forall2_diag, Forall_forall. auto.
Qed.

End SelectorMore.

Section SelectorOverElastic.
Context {F : Type}.
Variable eng : Engine F.

Import SemanticSimilarityExampleSelector.

(** X14 - The selector over an [ElasticVectorSearch] store loses the
    examples: given the Documents the search returns, without an allow-list
    (or with an empty one) [select_examples] returns one empty dict per
    Document; with a non-empty allow-list it raises [KeyError] for the
    first listed key as soon as one Document is retrieved, and returns the
    empty list when none is. *)
Theorem select_examples_over_elastic
    (self : t ElasticVectorSearch.t) input_variables (w : World F) docs w1 :
  ElasticVectorSearch.similarity_search eng (vectorstore self)
    (str_join " " (dict_values input_variables)) (k self) w = (Ok docs, w1) →
  select_examples (VectorStore0 := ElasticVectorSearch_VectorStore eng)
    self input_variables w
  = match example_keys self with
    | Some (key :: _) =>
        match docs with
        | [] => (Ok [], w1)
        | _ :: _ => (Raise (KeyError key), w1)
        end
    | _ => (Ok (replicate (length docs) []), w1)
    end.
Proof.
  intros Hsearch. unfold select_examples.
  cbn [similarity_search ElasticVectorSearch_VectorStore].
  rewrite (bind_Ok_eq _ _ _ _ _ Hsearch).
  apply similarity_search_Ok_inv in Hsearch as (hits & ->).
  rewrite !length_fmap.
  assert (Hempty : metadata <$> (Document_of_text <$> (entry_text <$> hits))
                   = replicate (length hits) []).
  { clear. induction hits as [|h hits IH]; [done|]. cbn. by rewrite <- IH. }
  rewrite Hempty.
  destruct (example_keys self) as [[|key keys]|]; cbn [keys_given default];
    [done| |done].
  by destruct hits.
Qed.

End SelectorOverElastic.

(** A space-free word followed by a space splits a string in one way. *)
Lemma string_append_cons c a y : String c a +:+ y = String c (a +:+ y).
Proof. reflexivity. Qed.

Lemma string_append_nil y : "" +:+ y = y.
Proof. reflexivity. Qed.

Lemma has_space_app a x : has_space (a +:+ String Ascii.Space x) = true.
Proof.
  induction a as [|c a IH]; [done|].
  rewrite string_append_cons. cbn [has_space].
  by destruct (Ascii.eqb c Ascii.Space).
Qed.

Lemma space_split_unique a b x y :
  has_space a = false → has_space b = false →
  a +:+ String Ascii.Space x = b +:+ String Ascii.Space y →
  a = b ∧ x = y.
Proof.
  revert b. induction a as [|c a IH]; intros [|c' b];
    rewrite ?string_append_cons, ?string_append_nil; cbn [has_space].
  - intros _ _ [= ->]. done.
  - intros _ Hb [= <- _]. done.
  - intros Ha _ [= -> _]. done.
  - destruct (Ascii.eqb c Ascii.Space) eqn:Hc; [done|].
    destruct (Ascii.eqb c' Ascii.Space) eqn:Hc'; [done|].
    intros Ha Hb [= -> Heq]. by destruct (IH b Ha Hb Heq) as [-> ->].
Qed.

(** X15 - The flattening loses no value when no value contains a space:
    two non-empty examples with space-free values and the same flattened
    text have the same values in the same order. *)
Theorem flatten_values_injective (d d' : pydict) :
  d ≠ [] → d' ≠ [] →
  Forall (λ v, has_space v = false) d.*2 →
  Forall (λ v, has_space v = false) d'.*2 →
  str_join " " (dict_values d) = str_join " " (dict_values d') →
  d.*2 = d'.*2.
Proof.
  rewrite !str_join_values. revert d'.
  induction d as [|[k v] d IH]; [done|].
  intros [|[k' v'] d'] _ Hd' Hv Hv' Hflat; [done|].
  apply Forall_cons in Hv as [Hv Hvs]. apply Forall_cons in Hv' as [Hv' Hvs'].
  cbn [flatten_values] in Hflat.
  destruct d as [|kv d], d' as [|kv' d'];
    rewrite ?string_append_cons, ?string_append_nil in Hflat.
  - cbn. by rewrite Hflat.
  - assert (has_space v = true) by (rewrite Hflat; apply has_space_app).
    cbn [snd] in Hv. congruence.
  - assert (has_space v' = true) by (rewrite <- Hflat; apply has_space_app).
    cbn [snd] in Hv'. congruence.
  - apply space_split_unique in Hflat as [-> Hrest]; [|done..].
    rewrite (fmap_cons snd (k, v')), (fmap_cons snd (k', v')).
    cbn [snd]. f_equal. by apply IH.
Qed.

(* ===================================================================== *)
(** ** The further theorems at concrete inputs                            *)
(* ===================================================================== *)

Lemma insert_hit_Permutation q x hits : insert_hit q x hits ≡ₚ x :: hits.
Proof.
  induction hits as [|y hits IH]; [done|]. cbn.
  destruct (Qlt_le_dec _ _); [|done].
  rewrite IH. apply Permutation_swap.
Qed.

(** The reference engine lists every document of the index. *)
Lemma full_engine_lists_every_document : lists_every_document full_engine.
Proof.
  intros query docs. cbn. unfold rank_by_cosine.
  induction docs as [|x docs IH]; [done|]. cbn.
  by rewrite insert_hit_Permutation, IH.
Qed.

Lemma from_texts_returns_only_if_witness :
  (∃ url, configured_endpoint
            (<["metadatas" := PDicts [example_sum; example_ocean]]> ∅)
            sample_world = Some url ∧
          client_error full_engine url = None) ∧
  elasticsearch_installed sample_world = true ∧
  indices sample_world !! "index-0" = None ∧
  embed_documents length_embedding ["2+2 4"; "ocean color blue"] ≠ [] ∧
  (2 ≤ length (embed_documents length_embedding
                 ["2+2 4"; "ocean color blue"]))%nat.
Proof.
  apply (from_texts_returns_only_if full_engine
           ["2+2 4"; "ocean color blue"] length_embedding
           (<["metadatas" := PDicts [example_sum; example_ocean]]> ∅)
           sample_world sample_store sample_indexed_world).
  vm_compute; reflexivity.
Defined.

Lemma from_texts_read_after_write_witness :
  ∃ ix first,
    indices sample_indexed_world !! "index-0" = Some ix ∧
    ix_pending ix = [] ∧
    length (ix_docs ix) = 2%nat ∧
    (∀ i t, ["2+2 4"; "ocean color blue"] !! i = Some t →
       ∃ v, embed_documents length_embedding ["2+2 4"; "ocean color blue"] !! i
            = Some v ∧
            ix_docs ix !! i = Some {| entry_text := t; entry_vector := v |}) ∧
    embed_documents length_embedding ["2+2 4"; "ocean color blue"] !! 0%nat
    = Some first ∧
    ix_mappings ix
    = Some (ElasticVectorSearch._default_text_mapping (length first)) ∧
    (∀ other, other ≠ "index-0" →
       indices sample_indexed_world !! other = indices sample_world !! other).
Proof.
  apply (from_texts_read_after_write full_engine
           ["2+2 4"; "ocean color blue"] length_embedding
           (<["metadatas" := PDicts [example_sum; example_ocean]]> ∅)
           sample_world sample_store sample_indexed_world).
  vm_compute; reflexivity.
Defined.

Lemma from_texts_not_installed_witness :
  ElasticVectorSearch.from_texts full_engine ["ab"] length_embedding ∅
    uninstalled_world
  = (Raise (ValueError ElasticVectorSearch.import_error_message),
     uninstalled_world).
Proof.
  apply (from_texts_not_installed full_engine ["ab"] length_embedding ∅
           uninstalled_world (PStr "http://localhost:9200"));
    reflexivity.
Defined.

Lemma from_texts_misformatted_url_witness :
  ElasticVectorSearch.from_texts full_engine ["ab"] length_embedding
    (<["elasticsearch_url" := PStr "localhost:9200"]> ∅) bare_world
  = (Raise (ValueError
       ("Your elasticsearch client string is misformatted. "
        +:+ "Got error: "
        +:+ "URL must include a 'scheme', 'host', and 'port' component"
        +:+ " ")), bare_world).
Proof.
  apply (from_texts_misformatted_url full_engine ["ab"] length_embedding
           (<["elasticsearch_url" := PStr "localhost:9200"]> ∅) bare_world
           (PStr "localhost:9200"));
    reflexivity.
Defined.

Lemma from_texts_keyword_over_environment_witness :
  ∃ s w1,
    ElasticVectorSearch.from_texts full_engine ["ab"] length_embedding
      (<["elasticsearch_url" := PStr "http://es:9200"]> ∅) sample_world
    = (Ok s, w1) ∧
    hosts (ElasticVectorSearch.client s) = PStr "http://es:9200".
Proof.
  eexists _, _. split; [vm_compute; reflexivity|].
  refine (proj1 (from_texts_keyword_over_environment full_engine ["ab"]
                   length_embedding
                   (<["elasticsearch_url" := PStr "http://es:9200"]> ∅)
                   sample_world _ _ _) _);
    [vm_compute; reflexivity|reflexivity].
Defined.

Lemma from_texts_short_embeddings_witness :
  ∃ w',
    ElasticVectorSearch.from_texts full_engine ["ab"; "cd"]
      short_embedding ∅ sample_world
    = (Raise (IndexError "list index out of range"), w') ∧
    indices w'
    = <["index-0" :=
          {| ix_mappings := Some (ElasticVectorSearch._default_text_mapping 2);
             ix_docs := []; ix_pending := [] |}]> (indices sample_world) ∧
    requests_sent w'
    = requests_sent sample_world
      ++ [IndicesCreate "index-0"
            (ElasticVectorSearch._default_text_mapping 2)].
Proof.
  apply (from_texts_short_embeddings full_engine ["ab"; "cd"]
           short_embedding ∅ sample_world (PStr "http://localhost:9200")
           [2; 1]); try reflexivity.
  cbn. lia.
Defined.

Lemma similarity_search_nonpositive_k_witness :
  ∃ docs w',
    ElasticVectorSearch.similarity_search full_engine sample_store
      "2+2 4" (-1) sample_indexed_world = (Ok docs, w') ∧
    page_content <$> docs = ["2+2 4"].
Proof.
  destruct (similarity_search_nonpositive_k full_engine sample_store
              "2+2 4" (-1) sample_indexed_world
              {| ix_mappings :=
                   Some (ElasticVectorSearch._default_text_mapping 2);
                 ix_docs := [ {| entry_text := "2+2 4";
                                 entry_vector := [5; 1] |};
                              {| entry_text := "ocean color blue";
                                 entry_vector := [16; 1] |} ];
                 ix_pending := [] |})
    as (docs & w' & Hrun & _ & Hneg); [vm_compute; reflexivity|lia|].
  exists docs, w'. split; [exact Hrun|].
  rewrite Hneg by lia. vm_compute; reflexivity.
Defined.

Lemma similarity_search_prefix_witness :
  ∃ docs docs' w',
    ElasticVectorSearch.similarity_search full_engine sample_store
      "ocean" 1 sample_indexed_world = (Ok docs, w') ∧
    ElasticVectorSearch.similarity_search full_engine sample_store
      "ocean" 2 sample_indexed_world = (Ok docs', w') ∧
    docs = take (Z.to_nat 1) docs'.
Proof.
  apply (similarity_search_prefix full_engine sample_store "ocean" 1 2
           sample_indexed_world
           {| ix_mappings :=
                Some (ElasticVectorSearch._default_text_mapping 2);
              ix_docs := [ {| entry_text := "2+2 4";
                              entry_vector := [5; 1] |};
                           {| entry_text := "ocean color blue";
                              entry_vector := [16; 1] |} ];
              ix_pending := [] |});
    [vm_compute; reflexivity|lia|lia].
Defined.

Lemma from_texts_isolated_witness :
  ∃ s w1 s' w2,
    ElasticVectorSearch.from_texts full_engine ["ab"; "e"] length_embedding ∅
      sample_world = (Ok s, w1) ∧
    ElasticVectorSearch.from_texts full_engine ["xyz"] length_embedding ∅
      w1 = (Ok s', w2) ∧
    ElasticVectorSearch.index_name s' ≠ ElasticVectorSearch.index_name s ∧
    indices w2 !! ElasticVectorSearch.index_name s
    = indices w1 !! ElasticVectorSearch.index_name s ∧
    fst (ElasticVectorSearch.similarity_search full_engine s "e" 4 w2)
    = fst (ElasticVectorSearch.similarity_search full_engine s "e" 4 w1).
Proof.
  eexists _, _, _, _.
  split; [vm_compute; reflexivity|].
  split; [vm_compute; reflexivity|].
  eapply (from_texts_isolated full_engine ["ab"; "e"] length_embedding ∅
            ["xyz"] length_embedding ∅ sample_world);
    vm_compute; reflexivity.
Defined.

Lemma similarity_search_complete_engine_witness :
  ∃ docs w2,
    ElasticVectorSearch.similarity_search full_engine sample_store
      "ocean" 4 sample_indexed_world = (Ok docs, w2) ∧
    length docs = Nat.min (Z.to_nat 4) 2 ∧
    ∀ d, d ∈ docs → page_content d ∈ ["2+2 4"; "ocean color blue"].
Proof.
  apply (similarity_search_complete_engine full_engine
           ["2+2 4"; "ocean color blue"] length_embedding
           (<["metadatas" := PDicts [example_sum; example_ocean]]> ∅)
           sample_world sample_store sample_indexed_world "ocean" 4).
  - apply full_engine_lists_every_document.
  - lia.
  - vm_compute; reflexivity.
Defined.

Lemma select_examples_in_key_order_witness :
  SemanticSimilarityExampleSelector.select_examples (F := Z)
    (selector_over memory_examples (Some ["a"; "q"])) [("q", "3+3")] tt
  = (Ok [ [("a", "4"); ("q", "2+2")];
          [("a", "blue"); ("q", "ocean color")] ], tt).
Proof.
  apply (select_examples_in_key_order (F := Z)
           (selector_over memory_examples (Some ["a"; "q"])) [("q", "3+3")] tt
           memory_examples tt ["a"; "q"]).
  - reflexivity.
  - discriminate.
  - apply NoDup_cons. split; [by intros ?%list_elem_of_singleton|].
    apply NoDup_singleton.
  - vm_compute; reflexivity.
  - repeat constructor; by eexists.
Defined.

Lemma select_examples_sub_metadata_witness :
  Forall2 (λ d e, ∀ key v, dict_get key e = Some v →
                           dict_get key (metadata d) = Some v)
    memory_examples [ [("a", "4")]; [("a", "blue")] ].
Proof.
  apply (select_examples_sub_metadata (F := Z)
           (selector_over memory_examples (Some ["a"])) [("q", "3+3")] tt
           memory_examples tt [ [("a", "4")]; [("a", "blue")] ] tt);
    vm_compute; reflexivity.
Defined.

Lemma select_examples_over_elastic_witness :
  SemanticSimilarityExampleSelector.select_examples
    (VectorStore0 := ElasticVectorSearch_VectorStore full_engine)
    (elastic_selector None) example_sum sample_indexed_world
  = (Ok [ []; [] ],
     snd (ElasticVectorSearch.similarity_search full_engine sample_store
            "2+2 4" 4 sample_indexed_world)) ∧
  ∃ w1,
    SemanticSimilarityExampleSelector.select_examples
      (VectorStore0 := ElasticVectorSearch_VectorStore full_engine)
      (elastic_selector (Some ["q"; "a"])) example_sum sample_indexed_world
    = (Raise (KeyError "q"), w1).
Proof.
  split.
  - apply (select_examples_over_elastic full_engine (elastic_selector None)
             example_sum sample_indexed_world
             [Document_of_text "2+2 4"; Document_of_text "ocean color blue"]).
    vm_compute; reflexivity.
  - eexists.
    apply (select_examples_over_elastic full_engine
             (elastic_selector (Some ["q"; "a"]))
             example_sum sample_indexed_world
             [Document_of_text "2+2 4"; Document_of_text "ocean color blue"]).
    vm_compute; reflexivity.
Defined.

Lemma flatten_values_injective_witness :
  example_sum.*2 = [("x", "2+2"); ("y", "4")].*2.
Proof.
  apply (flatten_values_injective example_sum [("x", "2+2"); ("y", "4")]);
    try discriminate; try reflexivity; by repeat constructor.
Defined.

Section SelectorBuiltOverElastic.
Context {F : Type}.
Variable eng : Engine F.

Import SemanticSimilarityExampleSelector.

(** X16 - End to end over [ElasticVectorSearch]: the examples handed to
    [from_examples] reach the engine as flattened texts only, so against an
    engine that lists every document [select_examples] on the selector
    just built returns [min(k, len(examples))] empty dicts, whatever the
    input. *)
Theorem from_examples_over_elastic examples emb k0 kw (w : World F)
    sel w1 input_variables :
  lists_every_document eng →
  0 ≤ k0 →
  from_examples (VectorStore0 := ElasticVectorSearch_VectorStore eng)
    examples emb k0 kw w = (Ok sel, w1) →
  ∃ w2,
    select_examples (VectorStore0 := ElasticVectorSearch_VectorStore eng)
      sel input_variables w1
    = (Ok (replicate (Nat.min (Z.to_nat k0) (length examples)) []), w2).
Proof.
  intros Hall Hk (vs & Hvs & ->)%from_examples_Ok.
  cbn [from_texts ElasticVectorSearch_VectorStore] in Hvs.
  apply from_texts_Ok in Hvs
    as (url & first & _ & _ & _ & _ & Hlen & _ & -> & Hix & _).
  rewrite length_fmap in Hlen.
  eexists. unfold select_examples.
  cbn [vectorstore k example_keys keys_given similarity_search
       ElasticVectorSearch_VectorStore].
  erewrite bind_Ok_eq; last first.
  { apply similarity_search_run. cbn. by rewrite Hix, lookup_insert_eq. }
  cbn [ix_docs ElasticVectorSearch.embedding_function]. unfold ret.
  set (hits := slice_to k0 _).
  assert (Hn : length hits = Nat.min (Z.to_nat k0) (length examples)).
  { unfold hits. rewrite slice_to_length by done.
    rewrite (Hall _ _), entries_of_length; rewrite length_fmap; done. }
  rewrite <- Hn. f_equal. f_equal.
  clear. induction hits as [|h hits IH]; [done|].
  cbn. by rewrite <- IH.
Qed.

End SelectorBuiltOverElastic.

Lemma from_examples_over_elastic_witness :
  ∃ sel w1 w2,
    SemanticSimilarityExampleSelector.from_examples
      (VectorStore0 := ElasticVectorSearch_VectorStore full_engine)
      [example_sum; example_ocean] length_embedding 1 ∅ sample_world
    = (Ok sel, w1) ∧
    SemanticSimilarityExampleSelector.select_examples
      (VectorStore0 := ElasticVectorSearch_VectorStore full_engine)
      sel example_sum w1
    = (Ok [ [] ], w2).
Proof.
  eexists _, _. 
  destruct (from_examples_over_elastic full_engine
              [example_sum; example_ocean] length_embedding 1 ∅ sample_world
              (elastic_selector_built 1) sample_indexed_world example_sum)
    as [w2 Hsel].
  - apply full_engine_lists_every_document.
  - lia.
  - vm_compute; reflexivity.
  - exists w2. split; [vm_compute; reflexivity|exact Hsel].
Defined.
